(** * Relay: an ephemeral owner-scoped blob store

    A shallow embedding of the two server programs of the repository,

    - [src/app.js]: the typed store (routes [/save/:type/:userId/:objectId],
      [/fetch/:type/:userId], [/object/:objectId]), module [App];
    - [src/unnamed/part_000]: the content-fingerprint store (routes
      [/server], [/save/:userId], [/fetch/:userId/:page]), module
      [Fingerprint];

    together with the parts of their platform that decide the behaviour
    specified: JavaScript strings and [parseInt], [Date] arithmetic in local
    time, SHA-256 as computed by [crypto.createHash("sha256")], and the
    SQLite statements the handlers run.

    Conventions.
    - A JavaScript string is a [string]: one [ascii] per UTF-16 code unit,
      which covers the code units below 256; [Js.utf8] is the encoding Node
      applies when such a string is hashed.
    - A JavaScript number holding an integer is a [Z]; the model is exact
      on the safe integers (absolute value at most 2^53), and [NaN] is
      [None]. Beyond them a number is rounded, and a statement bound to an
      offset outside the 64-bit range fails, which the [catch] clause of
      the fetch routes answers by 500: statements about a fetch for an
      arbitrary page parameter are therefore made where the offset is a
      safe integer.
    - The table [objects] is the list of its rows in rowid order.
    - [Date.now()], the time zone of the process and the value drawn by
      [randomblob(16)] are inputs of the handlers.
    - The statements always run to completion: the answers 500 that the
      [catch] clauses give to a failing database are not modelled, those
      they give to an error thrown by the handler itself are. *)

From Stdlib Require Import ZArith NArith List String Ascii Bool Lia.
From Stdlib Require Import Permutation Sorted.
Import ListNotations.

Local Open Scope string_scope.
Local Open Scope Z_scope.

(* ===================================================================== *)
(** * Part I: definitions *)
(* ===================================================================== *)

(** ** JavaScript strings *)

Module Js.

Definition code (c : ascii) : N := N_of_ascii c.

(** UTF-8 encoding of one code unit below 256: one byte up to U+007F,
    two bytes above. *)
Definition utf8_unit (c : ascii) : list N :=
  let n := code c in
  if (n <? 128)%N then [n]
  else [(192 + N.shiftr n 6)%N; (128 + N.land n 63)%N].

Fixpoint utf8 (s : string) : list N :=
  match s with
  | EmptyString => []
  | String c s' => (utf8_unit c ++ utf8 s')%list
  end.

Fixpoint all_chars (p : ascii -> bool) (s : string) : bool :=
  match s with
  | EmptyString => true
  | String c s' => p c && all_chars p s'
  end.

Definition is_decimal_digit (c : ascii) : bool :=
  ((48 <=? code c) && (code c <=? 57))%N.

Definition is_lower_hex (c : ascii) : bool :=
  is_decimal_digit c || ((97 <=? code c) && (code c <=? 102))%N.

Definition is_hex (c : ascii) : bool :=
  is_lower_hex c || ((65 <=? code c) && (code c <=? 70))%N.

(** [parseInt(string, radix)] (ECMAScript 19.2.5); [radix = 0] stands for
    an absent radix. White space is the part of [StrWhiteSpaceChar] below
    256. *)
Definition is_white_space (c : ascii) : bool :=
  existsb (N.eqb (code c)) [9; 10; 11; 12; 13; 32; 160]%N.

Fixpoint trim_start (s : string) : string :=
  match s with
  | String c s' => if is_white_space c then trim_start s' else s
  | EmptyString => s
  end.

Definition digit_value (c : ascii) : option Z :=
  let n := Z.of_N (code c) in
  if (48 <=? n) && (n <=? 57) then Some (n - 48)
  else if (97 <=? n) && (n <=? 122) then Some (n - 87)
  else if (65 <=? n) && (n <=? 90) then Some (n - 55)
  else None.

(** The value of the longest prefix of radix-[R] digits, [acc] being the
    value read so far ([None]: no digit yet). *)
Fixpoint digits (R : Z) (s : string) (acc : option Z) : option Z :=
  match s with
  | String c s' =>
      match digit_value c with
      | Some d =>
          if d <? R
          then digits R s' (Some (match acc with
                                  | Some a => a * R + d
                                  | None => d
                                  end))
          else acc
      | None => acc
      end
  | EmptyString => acc
  end.

Definition strip_sign (s : string) : Z * string :=
  match s with
  | String c r =>
      if (c =? "-")%char then (-1, r)
      else if (c =? "+")%char then (1, r)
      else (1, s)
  | EmptyString => (1, s)
  end.

Definition strip_hex_prefix (s : string) : option string :=
  match s with
  | String c0 (String c1 r) =>
      if ((c0 =? "0") && ((c1 =? "x") || (c1 =? "X")))%char
      then Some r else None
  | _ => None
  end.

Definition parseInt (input : string) (radix : Z) : option Z :=
  let (sign, S) := strip_sign (trim_start input) in
  if negb (radix =? 0) && ((radix <? 2) || (36 <? radix)) then None
  else
    let strip := (radix =? 0) || (radix =? 16) in
    let R := if radix =? 0 then 10 else radix in
    let (R, S) := match (if strip then strip_hex_prefix S else None) with
                  | Some r => (16, r)
                  | None => (R, S)
                  end in
    option_map (Z.mul sign) (digits R S None).


(** The decimal numeral of a non-negative integer, as a client writes a
    page number; the fuel exceeds the number of digits. *)
Definition digit_char (d : Z) : ascii := ascii_of_N (Z.to_N (48 + d)).

Fixpoint decimal_from (fuel : nat) (n : Z) (tail : string) : string :=
  match fuel with
  | O => tail
  | S fuel' =>
      let tail' := String (digit_char (n mod 10)) tail in
      if n <? 10 then tail' else decimal_from fuel' (n / 10) tail'
  end.

Definition decimal (n : Z) : string :=
  decimal_from (S (Z.to_nat (Z.log2 n))) n "".

(** [ToString] of a value that is a string or [undefined]. *)
Definition to_string (v : option string) : string :=
  match v with
  | Some s => s
  | None => "undefined"
  end.

(** [Math.ceil(a / b)] for integers [a] and [b > 0]. *)
Definition ceil_div (a b : Z) : Z := - ((- a) / b).

(** [x || d] on a number: [NaN] and [0] are falsy. *)
Definition or_default (x : option Z) (d : Z) : Z :=
  match x with
  | Some n => if n =? 0 then d else n
  | None => d
  end.

End Js.

(** ** SHA-256 (FIPS 180-4), the digest behind [crypto.createHash("sha256")] *)

Module Sha256.
Local Open Scope N_scope.

Definition mask32 : N := N.ones 32.
Definition trunc32 (x : N) : N := N.land x mask32.
Definition add32 (x y : N) : N := trunc32 (x + y).
Definition rotr (n x : N) : N :=
  N.lor (N.shiftr x n) (trunc32 (N.shiftl x (32 - n))).
Definition not32 (x : N) : N := N.lxor x mask32.

Definition Ch (x y z : N) : N :=
  N.lxor (N.land x y) (N.land (not32 x) z).
Definition Maj (x y z : N) : N :=
  N.lxor (N.lxor (N.land x y) (N.land x z)) (N.land y z).
Definition Sigma0 (x : N) : N :=
  N.lxor (N.lxor (rotr 2 x) (rotr 13 x)) (rotr 22 x).
Definition Sigma1 (x : N) : N :=
  N.lxor (N.lxor (rotr 6 x) (rotr 11 x)) (rotr 25 x).
Definition sigma0 (x : N) : N :=
  N.lxor (N.lxor (rotr 7 x) (rotr 18 x)) (N.shiftr x 3).
Definition sigma1 (x : N) : N :=
  N.lxor (N.lxor (rotr 17 x) (rotr 19 x)) (N.shiftr x 10).

(** The round constants are the first 32 bits of the fractional parts of
    the cube roots of the first 64 primes, the initial state those of the
    square roots of the first 8 primes. *)
Definition primes64 : list N :=
  [2; 3; 5; 7; 11; 13; 17; 19; 23; 29; 31; 37; 41; 43; 47; 53;
   59; 61; 67; 71; 73; 79; 83; 89; 97; 101; 103; 107; 109; 113; 127; 131;
   137; 139; 149; 151; 157; 163; 167; 173; 179; 181; 191; 193; 197; 199;
   211; 223; 227; 229; 233; 239; 241; 251; 257; 263; 269; 271; 277; 281;
   283; 293; 307; 311].

(** Integer cube root, one bit at a time from bit [b - 1] down. *)
Fixpoint cbrt_bits (b : nat) (n r : N) : N :=
  match b with
  | O => r
  | S b' =>
      let r' := r + N.shiftl 1 (N.of_nat b') in
      cbrt_bits b' n (if r' * r' * r' <=? n then r' else r)
  end.

Definition frac_cbrt32 (p : N) : N :=
  trunc32 (cbrt_bits 40 (N.shiftl p 96) 0).
Definition frac_sqrt32 (p : N) : N :=
  trunc32 (N.sqrt (N.shiftl p 64)).

Definition K : list N := Eval vm_compute in map frac_cbrt32 primes64.

Record state : Type := State {
  ha : N; hb : N; hc : N; hd : N; he : N; hf : N; hg : N; hh : N
}.

Definition H0 : state := Eval vm_compute in
  match map frac_sqrt32 (firstn 8 primes64) with
  | [a; b; c; d; e; f; g; h] => State a b c d e f g h
  | _ => State 0 0 0 0 0 0 0 0
  end.

(** Padding: the byte 0x80, zero bytes up to 56 modulo 64, then the bit
    length as a 64-bit big-endian integer. *)
Fixpoint be_bytes (k : nat) (x : N) : list N :=
  match k with
  | O => []
  | S k' => N.land (N.shiftr x (8 * N.of_nat k')) 255 :: be_bytes k' x
  end.

Definition pad (msg : list N) : list N :=
  let len := N.of_nat (List.length msg) in
  let zeros := N.to_nat ((64 + 55 - len mod 64) mod 64) in
  (msg ++ [128] ++ repeat 0 zeros ++ be_bytes 8 (8 * len))%list.

Fixpoint words (bs : list N) : list N :=
  match bs with
  | b0 :: b1 :: b2 :: b3 :: rest =>
      (N.shiftl b0 24 + N.shiftl b1 16 + N.shiftl b2 8 + b3) :: words rest
  | _ => []
  end.

Definition round (k w : N) (s : state) : state :=
  let t1 := add32 (add32 (add32 (add32 (hh s) (Sigma1 (he s)))
                                (Ch (he s) (hf s) (hg s))) k) w in
  let t2 := add32 (Sigma0 (ha s)) (Maj (ha s) (hb s) (hc s)) in
  State (add32 t1 t2) (ha s) (hb s) (hc s)
        (add32 (hd s) t1) (he s) (hf s) (hg s).

(** The message schedule is kept as a window of sixteen words: its head
    is the word of the current round, its successor is appended. *)
Definition next_word (win : list N) : N :=
  add32 (add32 (add32 (sigma1 (nth 14 win 0)) (nth 9 win 0))
               (sigma0 (nth 1 win 0))) (nth 0 win 0).

Fixpoint rounds (ks win : list N) (s : state) : state :=
  match ks with
  | [] => s
  | k :: ks' =>
      rounds ks' (tl win ++ [next_word win])%list (round k (nth 0 win 0) s)
  end.

Definition compress (s : state) (block : list N) : state :=
  let r := rounds K block s in
  State (add32 (ha s) (ha r)) (add32 (hb s) (hb r))
        (add32 (hc s) (hc r)) (add32 (hd s) (hd r))
        (add32 (he s) (he r)) (add32 (hf s) (hf r))
        (add32 (hg s) (hg r)) (add32 (hh s) (hh r)).

Fixpoint blocks (fuel : nat) (ws : list N) (s : state) : state :=
  match fuel, ws with
  | S fuel', _ :: _ => blocks fuel' (skipn 16 ws) (compress s (firstn 16 ws))
  | _, _ => s
  end.

Definition digest (msg : list N) : state :=
  let ws := words (pad msg) in
  blocks (List.length ws) ws H0.

(** [digest("hex")]: lowercase hexadecimal, most significant nibble
    first. *)
Definition hex_digit (n : N) : ascii :=
  match n with
  | 0 => "0" | 1 => "1" | 2 => "2" | 3 => "3" | 4 => "4" | 5 => "5"
  | 6 => "6" | 7 => "7" | 8 => "8" | 9 => "9" | 10 => "a" | 11 => "b"
  | 12 => "c" | 13 => "d" | 14 => "e" | _ => "f"
  end%char.

Definition nibble (w : N) (i : N) : ascii :=
  hex_digit (N.land (N.shiftr w (4 * i)) 15).

Definition hex32 (w : N) (tail : string) : string :=
  String (nibble w 7) (String (nibble w 6) (String (nibble w 5)
  (String (nibble w 4) (String (nibble w 3) (String (nibble w 2)
  (String (nibble w 1) (String (nibble w 0) tail))))))).

Definition hex (s : state) : string :=
  hex32 (ha s) (hex32 (hb s) (hex32 (hc s) (hex32 (hd s)
  (hex32 (he s) (hex32 (hf s) (hex32 (hg s) (hex32 (hh s) ""))))))).

(** [crypto.createHash("sha256").update(s).digest("hex")] *)
Definition sha256_hex (s : string) : string := hex (digest (Js.utf8 s)).

(** The shape of a hex-encoded digest: 64 lowercase hexadecimal
    characters. *)
Definition is_digest_hex (s : string) : bool :=
  (String.length s =? 64)%nat && Js.all_chars Js.is_lower_hex s.

End Sha256.

(** ** [Date]: time values and local time (ECMAScript 21.4.1) *)

Module JsDate.

Definition msPerDay : Z := 86400000.

(** The time zone of the process: [LocalTZA t true] is the offset in
    effect at the UTC time value [t], [LocalTZA t false] the offset by
    which the local time value [t] is read. *)
Record TimeZone : Type := { LocalTZA : Z -> bool -> Z }.

Definition Day (t : Z) : Z := t / msPerDay.
Definition TimeWithinDay (t : Z) : Z := t mod msPerDay.

Definition DayFromYear (y : Z) : Z :=
  365 * (y - 1970) + (y - 1969) / 4 - (y - 1901) / 100 + (y - 1601) / 400.
Definition DaysInYear (y : Z) : Z :=
  if negb (y mod 4 =? 0) then 365
  else if negb (y mod 100 =? 0) then 366
  else if negb (y mod 400 =? 0) then 365
  else 366.

(** The largest [y] with [DayFromYear y <= Day t]: the estimate by the
    mean length of a year is off by at most one. *)
Definition YearFromTime (t : Z) : Z :=
  let d := Day t in
  let y := 1970 + (400 * d) / 146097 in
  if d <? DayFromYear y then y - 1
  else if DayFromYear (y + 1) <=? d then y + 1
  else y.

Definition InLeapYear (t : Z) : Z :=
  if DaysInYear (YearFromTime t) =? 366 then 1 else 0.
Definition DayWithinYear (t : Z) : Z := Day t - DayFromYear (YearFromTime t).

Definition MonthFromTime (t : Z) : Z :=
  let d := DayWithinYear t in
  let leap := InLeapYear t in
  if d <? 31 then 0
  else if d <? 59 + leap then 1
  else if d <? 90 + leap then 2
  else if d <? 120 + leap then 3
  else if d <? 151 + leap then 4
  else if d <? 181 + leap then 5
  else if d <? 212 + leap then 6
  else if d <? 243 + leap then 7
  else if d <? 273 + leap then 8
  else if d <? 304 + leap then 9
  else if d <? 334 + leap then 10
  else 11.

Definition DateFromTime (t : Z) : Z :=
  let d := DayWithinYear t in
  let leap := InLeapYear t in
  match MonthFromTime t with
  | 0 => d + 1
  | 1 => d - 30
  | 2 => d - 58 - leap
  | 3 => d - 89 - leap
  | 4 => d - 119 - leap
  | 5 => d - 150 - leap
  | 6 => d - 180 - leap
  | 7 => d - 211 - leap
  | 8 => d - 242 - leap
  | 9 => d - 272 - leap
  | 10 => d - 303 - leap
  | _ => d - 333 - leap
  end.

(** Day number of the first day of month [m] (0 to 11) of year [y]. *)
Definition DayFromMonth (y m : Z) : Z :=
  let leap := if DaysInYear y =? 366 then 1 else 0 in
  DayFromYear y +
  match m with
  | 0 => 0
  | 1 => 31
  | 2 => 59 + leap
  | 3 => 90 + leap
  | 4 => 120 + leap
  | 5 => 151 + leap
  | 6 => 181 + leap
  | 7 => 212 + leap
  | 8 => 243 + leap
  | 9 => 273 + leap
  | 10 => 304 + leap
  | _ => 334 + leap
  end.

Definition MakeDay (year month date : Z) : Z :=
  let ym := year + month / 12 in
  let mn := month mod 12 in
  DayFromMonth ym mn + date - 1.

Definition MakeDate (day time : Z) : Z := day * msPerDay + time.

Definition LocalTime (tz : TimeZone) (t : Z) : Z := t + LocalTZA tz t true.
Definition UTC (tz : TimeZone) (t : Z) : Z := t - LocalTZA tz t false.

(** [Date.prototype.getDate] and [Date.prototype.setDate] on the time
    value of the receiver; [setDate] returns the new time value. *)
Definition getDate (tz : TimeZone) (tv : Z) : Z :=
  DateFromTime (LocalTime tz tv).

Definition setDate (tz : TimeZone) (tv : Z) (date : Z) : Z :=
  let t := LocalTime tz tv in
  let newDate :=
    MakeDate (MakeDay (YearFromTime t) (MonthFromTime t) date)
             (TimeWithinDay t) in
  UTC tz newDate.

(** A zone with a fixed offset, such as UTC. *)
Definition fixed_zone (offset : Z) : TimeZone :=
  {| LocalTZA := fun _ _ => offset |}.

Definition utc_zone : TimeZone := fixed_zone 0.

(** A zone that changes from [before] to [after] at the UTC time value
    [at_utc]; a local time that occurs twice is read with the offset
    before the transition. *)
Definition zone_with_transition (before after at_utc : Z) : TimeZone :=
  {| LocalTZA := fun t isUTC =>
       if isUTC
       then if t <? at_utc then before else after
       else if t <? at_utc + Z.max before after then before else after |}.

End JsDate.

(** ** The SQL clauses the handlers use *)

Module Sql.

Section Clauses.
Context {A : Type}.

(** [LIMIT limit OFFSET offset]: a negative offset counts as zero, a
    negative limit as no limit. *)
Definition limit_offset (limit offset : Z) (rows : list A) : list A :=
  let rest := skipn (Z.to_nat offset) rows in
  if limit <? 0 then rest else firstn (Z.to_nat limit) rest.

(** [ORDER BY key DESC], as an insertion sort that keeps rows with equal
    keys in table order. *)
Fixpoint insert_desc (key : A -> Z) (x : A) (rows : list A) : list A :=
  match rows with
  | [] => [x]
  | y :: rows' =>
      if key y <=? key x then x :: rows
      else y :: insert_desc key x rows'
  end.

Definition order_by_desc (key : A -> Z) (rows : list A) : list A :=
  fold_right (insert_desc key) [] rows.

(** The order of two consecutive rows of a descending result. *)
Definition descending (key : A -> Z) : A -> A -> Prop :=
  fun x y => key y <= key x.

(** [INSERT OR REPLACE] into a table whose primary key is [pk]: the rows
    in conflict with the new one are deleted, then it is inserted. *)
Definition insert_or_replace (pk : A -> string) (r : A) (rows : list A)
  : list A :=
  (filter (fun x => negb (pk x =? pk r)%string) rows ++ [r])%list.

(** [DELETE FROM ... WHERE created_at < cutoff]; the second component is
    [changes]. *)
Definition delete_older (created_at : A -> Z) (cutoff : Z) (rows : list A)
  : list A * Z :=
  let kept := filter (fun x => negb (created_at x <? cutoff)) rows in
  (kept, Z.of_nat (List.length rows) - Z.of_nat (List.length kept)).
End Clauses.

(** [LENGTH] of a text value: the characters before the first NUL. *)
Fixpoint length_text (s : string) : Z :=
  match s with
  | EmptyString => 0
  | String c s' => if (Js.code c =? 0)%N then 0 else 1 + length_text s'
  end.

(** [COUNT(DISTINCT ...)] over a text column. *)
Definition count_distinct (values : list string) : Z :=
  Z.of_nat (List.length (nodup string_dec values)).

(** [SUM] over an integer column: [NULL] when there is no row. *)
Definition sum (values : list Z) : option Z :=
  match values with
  | [] => None
  | _ => Some (fold_right Z.add 0 values)
  end.

End Sql.

(** ** [src/app.js] *)

Module App.

(** A row of the table [objects]; [id] defaults to
    [lower(hex(randomblob(16)))] and is the primary key. *)
Record row : Type := Row {
  id : string;
  objectId : string;
  userId : string;
  type : string;
  data : list Byte.byte;
  created_at : Z
}.

Definition table : Type := list row.

Inductive result (A : Type) : Type :=
| Return (a : A)
| Throw (message : string).
Arguments Return {A} a.
Arguments Throw {A} message.

Definition is_word_char (c : ascii) : bool :=
  let n := Js.code c in
  ((97 <=? n) && (n <=? 122) || (65 <=? n) && (n <=? 90)
   || (48 <=? n) && (n <=? 57) || (n =? 95))%N.

(** [/^[a-zA-Z0-9_]+$/.test(s)] *)
Fixpoint all_word_chars (s : string) : bool :=
  match s with
  | EmptyString => true
  | String c s' => is_word_char c && all_word_chars s'
  end.

Definition test_word (s : string) : bool :=
  negb (String.length s =? 0)%nat && all_word_chars s.

Definition validateType (type : string) : result string :=
  if (String.length type =? 0)%nat || (20 <? String.length type)%nat
  then Throw "Type must be a string between 1 and 20 characters"
  else if negb (test_word type)
  then Throw "Type must contain only letters, numbers, and underscores"
  else Return type.

Definition getTTLTimestamp (tz : JsDate.TimeZone) (clock : Z) : Z :=
  let now := clock in
  let now := JsDate.setDate tz now (JsDate.getDate tz now - 25) in
  now.

(** Returns the table after the run and [result.changes]. *)
Definition cleanupExpiredItems (tz : JsDate.TimeZone) (clock : Z)
    (db : table) : table * Z :=
  let ttlTimestamp := getTTLTimestamp tz clock in
  Sql.delete_older created_at ttlTimestamp db.

(** "Ensure userId is a SHA256 hash": the statement shared by the save
    and the fetch handlers. *)
Definition ensure_sha256 (userId : string) : string :=
  if negb (String.length userId =? 64)%nat
  then Sha256.sha256_hex userId
  else userId.

Definition ttl_ms : Z := 25 * 24 * 60 * 60 * 1000.

Record summary : Type := Summary {
  s_objectId : string;
  s_size : Z;
  s_createdAt : Z;
  s_expiresAt : Z
}.

Record pagination : Type := Pagination {
  page : Z;
  limit : Z;
  totalObjects : Z;
  totalPages : Z;
  hasNextPage : bool;
  hasPrevPage : bool
}.

(** The responses of the three routes; dates are kept as time values. *)
Inductive response : Type :=
| BadRequest (error : string)
| NotFound (error : string)
| Created (type userId objectId : string) (size : Z) (expiresAt : Z)
| Listing (type userId : string) (objects : list summary) (p : pagination)
| Raw (data : list Byte.byte).

Definition size_of (data : list Byte.byte) : Z := Z.of_nat (List.length data).

(** [POST /save/:type/:userId/:objectId]. [rid] is the value drawn for the
    default of [id], [clock] is [Date.now()], [body] is [req.body]
    ([None]: undefined). *)
Definition save (rid : string) (clock : Z) (type userId objectId : string)
    (body : option (list Byte.byte)) (db : table) : table * response :=
  match body with
  | None => (db, BadRequest "No data provided")
  | Some data =>
      if size_of data =? 0 then (db, BadRequest "No data provided")
      else
        match validateType type with
        | Throw message => (db, BadRequest message)
        | Return type =>
            let userId := ensure_sha256 userId in
            let now := clock in
            let db' :=
              Sql.insert_or_replace id
                (Row rid objectId userId type data now) db in
            (db', Created type userId objectId (size_of data) (now + ttl_ms))
        end
  end.

Definition visible (userId type : string) (ttlTimestamp : Z) (r : row)
  : bool :=
  (App.userId r =? userId)%string && (App.type r =? type)%string
  && (ttlTimestamp <=? created_at r).

(** The element of [objectList] made from a selected row. *)
Definition summarize (obj : row) : summary :=
  Summary (objectId obj) (size_of (data obj)) (created_at obj)
          (created_at obj + ttl_ms).

(** [Number.parseInt(req.query.page) || 1] *)
Definition page_number (query_page : option string) : Z :=
  Js.or_default (Js.parseInt (Js.to_string query_page) 0) 1.

(** [GET /fetch/:type/:userId?page=]. *)
Definition fetch (tz : JsDate.TimeZone) (clock : Z) (type userId : string)
    (query_page : option string) (db : table) : response :=
  let page := page_number query_page in
  let limit := 10 in
  let offset := (page - 1) * limit in
  match validateType type with
  | Throw message => BadRequest message
  | Return type =>
      let userId := ensure_sha256 userId in
      let ttlTimestamp := getTTLTimestamp tz clock in
      let count :=
        Z.of_nat (List.length (filter (visible userId type ttlTimestamp) db)) in
      let objects :=
        Sql.limit_offset limit offset
          (Sql.order_by_desc created_at
             (filter (visible userId type ttlTimestamp) db)) in
      let objectList := map summarize objects in
      let totalPages := Js.ceil_div count limit in
      Listing type userId objectList
        (Pagination page limit count totalPages
                    (page <? totalPages) (1 <? page))
  end.

(** [GET /object/:objectId]: [stmt.get] yields the first matching row. *)
Definition object (tz : JsDate.TimeZone) (clock : Z) (objectId : string)
    (db : table) : response :=
  let ttlTimestamp := getTTLTimestamp tz clock in
  match find (fun r => (App.objectId r =? objectId)%string
                       && (ttlTimestamp <=? created_at r)) db with
  | None => NotFound "Object not found or expired"
  | Some object => Raw (data object)
  end.

End App.

(** ** [src/unnamed/part_000]: the content-fingerprint store *)

Module Fingerprint.

(** A row of the table [objects]; [objectId] is the primary key. *)
Record row : Type := Row {
  objectId : string;
  userId : string;
  entry : string;
  created_at : Z
}.

Definition table : Type := list row.

Definition deleteOldEntries (clock : Z) (db : table) : table :=
  let now := clock in
  let tenDaysAgo := now - 10 * 24 * 60 * 60 * 1000 in
  fst (Sql.delete_older created_at tenDaysAgo db).

Definition hashUserId (userId : string) : string :=
  Sha256.sha256_hex userId.

Record stats : Type := Stats {
  totalEntries : Z;
  totalUsers : Z;
  totalSize : option Z
}.

(** [GET /server]. *)
Definition server (db : table) : stats :=
  let totalEntries := Z.of_nat (List.length db) in
  let totalUsers := Sql.count_distinct (map userId db) in
  let totalSize := Sql.sum (map (fun r => Sql.length_text (entry r)) db) in
  Stats totalEntries totalUsers totalSize.

Record page_info : Type := PageInfo {
  page : Z;
  limit : Z;
  totalPages : Z;
  totalCount : Z;
  hasNextPage : bool;
  hasPreviousPage : bool
}.

Inductive response : Type :=
| Saved (objectId : string) (expiresAt : Z)
| Failed (error : string)
| NotFound (error : string)
| Page (info : page_info) (data : list string).

(** [POST /save/:userId]. [stringified] is [JSON.stringify(req.body)]
    ([None]: undefined); a thrown error is answered by the [catch]
    clause. *)
Definition save (clock : Z) (userId : string) (stringified : option string)
    (db : table) : table * response :=
  let hashedUserId := hashUserId userId in
  match stringified with
  | None => (db, Failed "Failed to store object")
  | Some data =>
      if (String.length data =? 0)%nat
      then (db, Failed "Failed to store object")
      else
        let objectId := hashUserId (data ++ hashedUserId) in
        let now := clock in
        (Sql.insert_or_replace Fingerprint.objectId
           (Row objectId hashedUserId data now) db,
         Saved objectId (now + 25 * 24 * 60 * 60 * 1000))
  end.

(** [parseInt(req.params.page, 10) || 1] *)
Definition page_number (page_param : string) : Z :=
  Js.or_default (Js.parseInt page_param 10) 1.

(** [GET /fetch/:userId/:page]; the entries are returned as stored. *)
Definition fetch (userId page_param : string) (db : table) : response :=
  let page := page_number page_param in
  let hashedUserId := hashUserId userId in
  let limit := 30 in
  let offset := (page - 1) * limit in
  let owned := filter (fun r => (Fingerprint.userId r =? hashedUserId)%string) db in
  let totalCount := Z.of_nat (List.length owned) in
  let objects :=
    Sql.limit_offset limit offset (Sql.order_by_desc created_at owned) in
  if (List.length objects =? 0)%nat then NotFound "No data found"
  else
    Page (PageInfo page limit (Js.ceil_div totalCount limit) totalCount
                   (offset + limit <? totalCount) (1 <? page))
         (map entry objects).

End Fingerprint.

(** ** Concrete requests and tables used by the examples below *)

Module Scenario.

Definition payload_hello : list Byte.byte :=
  [Byte.x68; Byte.x65; Byte.x6c; Byte.x6c; Byte.x6f].
Definition payload_a : list Byte.byte := [Byte.x61].
Definition payload_b : list Byte.byte := [Byte.x62].

Definition rid1 : string := "0123456789abcdef0123456789abcdef".
Definition rid2 : string := "fedcba9876543210fedcba9876543210".

(** [sha256("alice")] *)
Definition alice : string :=
  "2bd806c97f0e00af1a1fc3328fa763a9269723c8db8fac4f93af71db186d6e90".

(** 2025-11-03T12:00:00Z and one day later. *)
Definition monday_noon : Z := 1762171200000.
Definition tuesday_noon : Z := monday_noon + JsDate.msPerDay.

(** Two saves of the key [k1] of owner [alice] in category [note]. *)
Definition saved_once : App.table :=
  fst (App.save rid1 monday_noon "note" "alice" "k1" (Some payload_a) []).
Definition saved_twice : App.table :=
  fst (App.save rid2 tuesday_noon "note" "alice" "k1" (Some payload_b)
         saved_once).

(** An owner identifier of 64 characters that is not a digest. *)
Definition raw64 : string :=
  "ZZZZZZZZZZZZZZZZZZZZZZZZZZZZZZZZZZZZZZZZZZZZZZZZZZZZZZZZZZZZZZZZ".

(** A 64-character hexadecimal owner key. *)
Definition hex64 : string :=
  "00112233445566778899aabbccddeeff00112233445566778899AABBCCDDEEFF".

(** US Eastern time around the end of daylight saving time on
    2025-11-02T06:00:00Z: UTC-4 before, UTC-5 after. *)
Definition new_york : JsDate.TimeZone :=
  JsDate.zone_with_transition (-4 * 3600000) (-5 * 3600000) 1762063200000.

(** A row written 25 days and one millisecond before [monday_noon]. *)
Definition expired_row : App.row :=
  App.Row rid1 "k1" alice "note" payload_a (monday_noon - App.ttl_ms - 1).

Definition one_entry : Fingerprint.table :=
  fst (Fingerprint.save monday_noon "alice" (Some "{}") []).

(** Eleven days after [monday_noon]. *)
Definition eleven_days_later : Z := monday_noon + 11 * JsDate.msPerDay.

(** The JSON text of an object whose member [a] is the string of the one
    character U+00E9: nine characters, of which U+00E9 takes two bytes. *)
Definition quote : ascii := ascii_of_nat 34.
Definition e_acute : ascii := ascii_of_nat 233.
Definition accent_json : string :=
  "{" ++ String quote ("a" ++ String quote (":" ++ String quote
    (String e_acute (String quote "}")))).

Definition accent_entry : Fingerprint.table :=
  fst (Fingerprint.save monday_noon "alice" (Some accent_json) []).

End Scenario.
(* ===================================================================== *)
(** * Part II: properties *)
(* ===================================================================== *)

(** ** The digest has the shape of a canonical owner key *)

Module Sha256Facts.
Import Sha256.

Lemma hex_digit_lower (n : N) : Js.is_lower_hex (hex_digit n) = true.
Proof.
  destruct n as [|p]; [reflexivity|].
  do 4 (try (destruct p as [p|p|]; try reflexivity)).
Qed.

Lemma hex32_length (w : N) (tail : string) :
  String.length (hex32 w tail) = (8 + String.length tail)%nat.
Proof. reflexivity. Qed.

Lemma hex32_lower (w : N) (tail : string) :
  Js.all_chars Js.is_lower_hex tail = true ->
  Js.all_chars Js.is_lower_hex (hex32 w tail) = true.
Proof.
  intros Htail. unfold hex32, nibble. cbn [Js.all_chars].
  rewrite !hex_digit_lower, Htail. reflexivity.
Qed.

Lemma hex_is_digest (s : state) : is_digest_hex (hex s) = true.
Proof.
  unfold is_digest_hex, hex. apply andb_true_intro. split.
  - rewrite !hex32_length. reflexivity.
  - repeat apply hex32_lower. reflexivity.
Qed.

Lemma sha256_hex_is_digest (s : string) :
  is_digest_hex (sha256_hex s) = true.
Proof. apply hex_is_digest. Qed.

Lemma sha256_hex_length (s : string) : String.length (sha256_hex s) = 64%nat.
Proof.
  pose proof (sha256_hex_is_digest s) as H. unfold is_digest_hex in H.
  apply andb_prop in H. now apply Nat.eqb_eq.
Qed.

Example sha256_empty :
  sha256_hex ""
  = "e3b0c44298fc1c149afbf4c8996fb92427ae41e4649b934ca495991b7852b855".
Proof. vm_compute. reflexivity. Qed.

Example sha256_abc :
  sha256_hex "abc"
  = "ba7816bf8f01cfea414140de5dae2223b00361a396177a9cb410ff61f20015ad".
Proof. vm_compute. reflexivity. Qed.

(** Two blocks: 56 bytes do not leave room for the length. *)
Example sha256_two_blocks :
  sha256_hex "abcdbcdecdefdefgefghfghighijhijkijkljklmklmnlmnomnopnopq"
  = "248d6a61d20638b8e5c026930c3e6039a33ce45964ff2167f6ecedd419db06c1".
Proof. vm_compute. reflexivity. Qed.

End Sha256Facts.

(** ** Local-time arithmetic of [Date] *)

Module JsDateFacts.
Import JsDate.

(** A year ends [DaysInYear] days after it began. *)
Lemma DayFromYear_succ (y : Z) :
  DayFromYear (y + 1) = DayFromYear y + DaysInYear y.
Proof.
  unfold DayFromYear, DaysInYear.
  destruct (Z.eqb_spec (y mod 4) 0); destruct (Z.eqb_spec (y mod 100) 0);
    destruct (Z.eqb_spec (y mod 400) 0); cbn [negb];
    Z.div_mod_to_equations; lia.
Qed.

(** [YearFromTime] is the year the day of [t] falls in. *)
Lemma YearFromTime_spec (t : Z) :
  DayFromYear (YearFromTime t) <= Day t < DayFromYear (YearFromTime t + 1).
Proof.
  unfold YearFromTime. set (d := Day t). clearbody d.
  set (y := 1970 + 400 * d / 146097).
  assert (Hy : DayFromYear (y - 1) <= d < DayFromYear (y + 2)).
  { subst y. unfold DayFromYear. split; Z.div_mod_to_equations; lia. }
  destruct (d <? DayFromYear y) eqn:E1.
  - apply Z.ltb_lt in E1. replace (y - 1 + 1) with y by lia. lia.
  - apply Z.ltb_ge in E1.
    destruct (DayFromYear (y + 1) <=? d) eqn:E2.
    + apply Z.leb_le in E2. replace (y + 1 + 1) with (y + 2) by lia. lia.
    + apply Z.leb_gt in E2. lia.
Qed.

Lemma MonthFromTime_range (t : Z) : 0 <= MonthFromTime t <= 11.
Proof.
  unfold MonthFromTime.
  repeat match goal with
         | |- context [if ?b then _ else _] => destruct b
         end; lia.
Qed.

(** The first day of the month of [t] and its date give back its day. *)
Lemma DayFromMonth_DateFromTime (t : Z) :
  DayFromMonth (YearFromTime t) (MonthFromTime t) + DateFromTime t - 1
  = Day t.
Proof.
  unfold DayFromMonth, DateFromTime, InLeapYear, DayWithinYear.
  pose proof (MonthFromTime_range t) as Hm.
  set (leap := if DaysInYear (YearFromTime t) =? 366 then 1 else 0).
  destruct (MonthFromTime t) as [|m|m]; [lia| |lia].
  do 4 (try (destruct m as [m|m|]; try lia)).
Qed.

Lemma MakeDay_shift (t k : Z) :
  MakeDay (YearFromTime t) (MonthFromTime t) (DateFromTime t + k)
  = Day t + k.
Proof.
  unfold MakeDay. pose proof (MonthFromTime_range t) as Hm.
  rewrite Z.div_small, Z.mod_small by lia.
  rewrite Z.add_0_r.
  pose proof (DayFromMonth_DateFromTime t). lia.
Qed.

(** [d.setDate(d.getDate() + k)] moves the local time by [k] days. *)
Lemma setDate_getDate (tz : TimeZone) (tv k : Z) :
  setDate tz tv (getDate tz tv + k)
  = UTC tz (LocalTime tz tv + k * msPerDay).
Proof.
  unfold setDate, getDate. rewrite MakeDay_shift.
  f_equal. unfold MakeDate, Day, TimeWithinDay, msPerDay.
  pose proof (Z.div_mod (LocalTime tz tv) 86400000). lia.
Qed.

(** The civil dates of some time values: 1970-01-01, the day before,
    2024-02-29, 2000-02-29, 2100-03-01 and 2025-11-03. *)
Example civil_dates :
  map (fun t => (YearFromTime t, MonthFromTime t, DateFromTime t))
      [0; -1; 1709210096000; 951782400000; 4107542400000; 1762171200000]
  = [(1970, 0, 1); (1969, 11, 31); (2024, 1, 29); (2000, 1, 29);
     (2100, 2, 1); (2025, 10, 3)].
Proof. vm_compute. reflexivity. Qed.

Lemma setDate_getDate_fixed (offset tv k : Z) :
  setDate (fixed_zone offset) tv (getDate (fixed_zone offset) tv + k)
  = tv + k * msPerDay.
Proof.
  rewrite setDate_getDate. unfold UTC, LocalTime, fixed_zone. simpl. lia.
Qed.

End JsDateFacts.

(** ** [parseInt] on page numbers *)

Module JsFacts.
Import Js.

Lemma decimal_digit_code (c : ascii) :
  is_decimal_digit c = true -> (48 <= code c <= 57)%N.
Proof.
  unfold is_decimal_digit. intros H. apply andb_prop in H.
  destruct H as [H1 H2]. apply N.leb_le in H1, H2. lia.
Qed.

Lemma code_digit_char (d : Z) :
  0 <= d < 10 -> code (digit_char d) = Z.to_N (48 + d).
Proof.
  intros Hd. unfold code, digit_char. apply N_ascii_embedding. lia.
Qed.

Lemma digit_char_decimal (d : Z) :
  0 <= d < 10 -> is_decimal_digit (digit_char d) = true.
Proof.
  intros Hd. unfold is_decimal_digit. rewrite code_digit_char by exact Hd.
  apply andb_true_intro. split; apply N.leb_le; lia.
Qed.

Lemma digit_value_decimal (c : ascii) :
  is_decimal_digit c = true -> digit_value c = Some (Z.of_N (code c) - 48).
Proof.
  intros H. apply decimal_digit_code in H. unfold digit_value.
  replace ((48 <=? Z.of_N (code c)) && (Z.of_N (code c) <=? 57)) with true.
  - reflexivity.
  - symmetry. apply andb_true_intro. split; apply Z.leb_le; lia.
Qed.

Lemma digit_value_digit_char (d : Z) :
  0 <= d < 10 -> digit_value (digit_char d) = Some d.
Proof.
  intros Hd. rewrite digit_value_decimal by now apply digit_char_decimal.
  rewrite code_digit_char by exact Hd. f_equal. lia.
Qed.


Lemma decimal_digit_not_space (c : ascii) :
  is_decimal_digit c = true -> is_white_space c = false.
Proof.
  intros H. apply decimal_digit_code in H. unfold is_white_space.
  cbn [existsb].
  repeat match goal with
         | |- context [(?a =? ?b)%N] =>
             destruct (N.eqb_spec a b); [lia|]
         end.
  reflexivity.
Qed.

Lemma decimal_digit_neq (c c' : ascii) :
  is_decimal_digit c = true -> is_decimal_digit c' = false ->
  (c =? c')%char = false.
Proof.
  intros H H'. destruct (Ascii.eqb_spec c c') as [->|]; congruence.
Qed.

Lemma trim_start_digit (c : ascii) (s : string) :
  is_decimal_digit c = true -> trim_start (String c s) = String c s.
Proof. intros H. simpl. now rewrite decimal_digit_not_space. Qed.

Lemma strip_sign_digit (c : ascii) (s : string) :
  is_decimal_digit c = true -> strip_sign (String c s) = (1, String c s).
Proof.
  intros H. unfold strip_sign.
  now rewrite !(decimal_digit_neq c) by (exact H || reflexivity).
Qed.

Lemma strip_hex_prefix_digits (s : string) :
  all_chars is_decimal_digit s = true -> strip_hex_prefix s = None.
Proof.
  destruct s as [|c0 [|c1 r]]; try reflexivity.
  cbn [all_chars]. intros H.
  apply andb_prop in H. destruct H as [_ H].
  apply andb_prop in H. destruct H as [H1 _].
  unfold strip_hex_prefix.
  rewrite !(decimal_digit_neq c1) by (exact H1 || reflexivity).
  now rewrite andb_false_r.
Qed.


(** *** Numerals *)

Lemma decimal_from_digits (fuel : nat) (n : Z) (tail : string) :
  all_chars is_decimal_digit tail = true ->
  all_chars is_decimal_digit (decimal_from fuel n tail) = true.
Proof.
  revert n tail. induction fuel as [|fuel IH]; intros n tail Htail.
  - exact Htail.
  - assert (Hd : all_chars is_decimal_digit
                   (String (digit_char (n mod 10)) tail) = true).
    { cbn [all_chars]. rewrite Htail, digit_char_decimal.
      - reflexivity.
      - apply Z.mod_pos_bound. lia. }
    cbn [decimal_from]. destruct (n <? 10); [exact Hd|].
    now apply IH.
Qed.

Lemma decimal_from_nonempty (fuel : nat) (n : Z) (tail : string) :
  exists c rest, decimal_from (S fuel) n tail = String c rest.
Proof.
  revert n tail. induction fuel as [|fuel IH]; intros n tail.
  - cbn [decimal_from]. destruct (n <? 10); eauto.
  - change (decimal_from (S (S fuel)) n tail)
      with (if n <? 10 then String (digit_char (n mod 10)) tail
            else decimal_from (S fuel) (n / 10)
                   (String (digit_char (n mod 10)) tail)).
    destruct (n <? 10); eauto.
Qed.

(** Reading a numeral shifts what was read before and adds its value. *)
Lemma digits_decimal_from (fuel : nat) :
  forall n tail, 0 <= n < 2 ^ (Z.of_nat fuel + 1) ->
  exists k, forall acc,
    digits 10 (decimal_from (S fuel) n tail) acc
    = digits 10 tail (Some (match acc with
                            | Some a => a * k + n
                            | None => n
                            end)).
Proof.
  induction fuel as [|fuel IH]; intros n tail Hn.
  - exists 10. intros acc. cbn [decimal_from].
    change (2 ^ (Z.of_nat 0 + 1)) with 2 in Hn.
    replace (n <? 10) with true by (symmetry; apply Z.ltb_lt; lia).
    rewrite Z.mod_small by lia.
    cbn [digits]. rewrite digit_value_digit_char by lia.
    replace (n <? 10) with true by (symmetry; apply Z.ltb_lt; lia).
    reflexivity.
  - change (decimal_from (S (S fuel)) n tail)
      with (if n <? 10 then String (digit_char (n mod 10)) tail
            else decimal_from (S fuel) (n / 10)
                   (String (digit_char (n mod 10)) tail)).
    pose proof (Z.mod_pos_bound n 10 ltac:(lia)) as Hm.
    pose proof (Z.div_mod n 10 ltac:(lia)) as Hdm.
    destruct (Z.ltb_spec n 10) as [Hlt|Hge].
    + exists 10. intros acc. rewrite Z.mod_small by lia.
      cbn [digits]. rewrite digit_value_digit_char by lia.
      replace (n <? 10) with true by (symmetry; apply Z.ltb_lt; lia).
      reflexivity.
    + destruct (IH (n / 10) (String (digit_char (n mod 10)) tail))
        as [k Hk].
      { split; [apply Z.div_pos; lia|].
        apply Z.div_lt_upper_bound; [lia|].
        replace (Z.of_nat (S fuel) + 1) with (Z.succ (Z.of_nat fuel + 1))
          in Hn by lia.
        rewrite Z.pow_succ_r in Hn by lia. lia. }
      exists (k * 10). intros acc. rewrite Hk.
      cbn [digits]. rewrite digit_value_digit_char by lia.
      replace (n mod 10 <? 10) with true by (symmetry; apply Z.ltb_lt; lia).
      f_equal. f_equal. destruct acc; lia.
Qed.

Lemma decimal_digits (n : Z) : all_chars is_decimal_digit (decimal n) = true.
Proof. now apply decimal_from_digits. Qed.

Lemma digits_decimal (n : Z) : 0 <= n -> digits 10 (decimal n) None = Some n.
Proof.
  intros Hn. unfold decimal.
  destruct (digits_decimal_from (Z.to_nat (Z.log2 n)) n "") as [k Hk].
  - split; [exact Hn|]. rewrite Z2Nat.id by apply Z.log2_nonneg.
    destruct (Z.eq_dec n 0) as [->|Hz]; [reflexivity|].
    apply Z.log2_spec. lia.
  - now rewrite Hk.
Qed.

(** [parseInt] reads back the numeral of a non-negative integer, with the
    radix 10 and with no radix. *)
Lemma parseInt_decimal (n radix : Z) :
  0 <= n -> radix = 0 \/ radix = 10 -> parseInt (decimal n) radix = Some n.
Proof.
  intros Hn Hr. pose proof (decimal_digits n) as Hall.
  pose proof (digits_decimal n Hn) as Hval.
  destruct (decimal_from_nonempty (Z.to_nat (Z.log2 n)) n "")
    as (c & rest & Hc).
  fold (decimal n) in Hc. rewrite Hc in *.
  assert (Hhead : is_decimal_digit c = true).
  { cbn [all_chars] in Hall. now apply andb_prop in Hall. }
  unfold parseInt.
  rewrite trim_start_digit, strip_sign_digit by exact Hhead.
  destruct Hr as [-> | ->]; cbn -[digits strip_hex_prefix Z.mul].
  - rewrite strip_hex_prefix_digits by exact Hall.
    rewrite Hval. cbn [option_map]. f_equal. lia.
  - rewrite Hval. cbn [option_map]. f_equal. lia.
Qed.



End JsFacts.

(** ** The SQL clauses *)

Module SqlFacts.
Import Sql.

Section Clauses.
Context {A : Type}.
Implicit Types (rows : list A) (key : A -> Z) (pk : A -> string).

Lemma limit_offset_beyond (limit offset : Z) rows :
  Z.of_nat (List.length rows) <= offset ->
  limit_offset limit offset rows = [].
Proof.
  intros H. unfold limit_offset.
  rewrite skipn_all2 by lia.
  destruct (limit <? 0); [reflexivity|apply firstn_nil].
Qed.

Lemma limit_offset_page (limit offset : Z) rows :
  0 <= limit ->
  limit_offset limit offset rows
  = firstn (Z.to_nat limit) (skipn (Z.to_nat offset) rows).
Proof.
  intros H. unfold limit_offset.
  now replace (limit <? 0) with false by (symmetry; apply Z.ltb_ge; lia).
Qed.

Lemma limit_offset_In (limit offset : Z) rows (x : A) :
  In x (limit_offset limit offset rows) -> In x rows.
Proof.
  unfold limit_offset. intros H.
  rewrite <- (firstn_skipn (Z.to_nat offset) rows).
  apply in_or_app. right.
  destruct (limit <? 0); [exact H|].
  rewrite <- (firstn_skipn (Z.to_nat limit) (skipn _ rows)).
  apply in_or_app. now left.
Qed.

Lemma insert_desc_perm key (x : A) rows :
  Permutation (insert_desc key x rows) (x :: rows).
Proof.
  induction rows as [|y rows IH]; cbn [insert_desc].
  - reflexivity.
  - destruct (key y <=? key x); [reflexivity|].
    rewrite IH. apply perm_swap.
Qed.

Lemma order_by_desc_perm key rows :
  Permutation (order_by_desc key rows) rows.
Proof.
  induction rows as [|x rows IH]; cbn [order_by_desc fold_right].
  - reflexivity.
  - fold (order_by_desc key rows). rewrite insert_desc_perm.
    now apply perm_skip.
Qed.

Lemma order_by_desc_length key rows :
  List.length (order_by_desc key rows) = List.length rows.
Proof. apply Permutation_length, order_by_desc_perm. Qed.

Lemma order_by_desc_In key rows (x : A) :
  In x (order_by_desc key rows) <-> In x rows.
Proof.
  split; apply Permutation_in;
    [|symmetry]; apply order_by_desc_perm.
Qed.

Lemma insert_desc_sorted key (x : A) rows :
  Sorted (Sql.descending key) rows ->
  Sorted (Sql.descending key) (insert_desc key x rows).
Proof.
  induction 1 as [|y rows Hs IH Hhd]; cbn [insert_desc].
  - repeat constructor.
  - destruct (Z.leb_spec (key y) (key x)) as [Hle|Hgt].
    + repeat constructor; assumption.
    + constructor; [exact IH|].
      destruct Hhd as [|z rows' Hz]; cbn [insert_desc].
      * constructor. unfold Sql.descending. lia.
      * destruct (key z <=? key x); constructor;
          unfold Sql.descending in *; lia.
Qed.

Lemma order_by_desc_sorted key rows :
  Sorted (Sql.descending key) (order_by_desc key rows).
Proof.
  induction rows as [|x rows IH]; cbn [order_by_desc fold_right].
  - constructor.
  - now apply insert_desc_sorted.
Qed.

(** After [INSERT OR REPLACE] the new row is the only one with its
    key, and the rows with other keys are as before. *)
Lemma insert_or_replace_key pk (r : A) rows :
  filter (fun x => (pk x =? pk r)%string) (insert_or_replace pk r rows)
  = [r].
Proof.
  unfold insert_or_replace. rewrite filter_app. cbn [filter].
  rewrite String.eqb_refl.
  replace (filter _ (filter _ rows)) with (@nil A); [reflexivity|].
  symmetry. induction rows as [|y rows IH]; [reflexivity|].
  cbn [filter]. destruct (pk y =? pk r)%string eqn:E; cbn [negb filter].
  - exact IH.
  - now rewrite E.
Qed.

Lemma insert_or_replace_others pk (r : A) rows :
  filter (fun x => negb (pk x =? pk r)%string)
         (insert_or_replace pk r rows)
  = filter (fun x => negb (pk x =? pk r)%string) rows.
Proof.
  unfold insert_or_replace. rewrite filter_app. cbn [filter].
  rewrite String.eqb_refl. cbn [negb]. rewrite app_nil_r.
  induction rows as [|y rows IH]; [reflexivity|].
  cbn [filter]. destruct (pk y =? pk r)%string eqn:E; cbn [negb filter].
  - exact IH.
  - rewrite E. cbn [negb]. now rewrite IH.
Qed.

Lemma insert_or_replace_fresh pk (r : A) rows :
  (forall x, In x rows -> pk x <> pk r) ->
  insert_or_replace pk r rows = (rows ++ [r])%list.
Proof.
  intros H. unfold insert_or_replace. f_equal.
  induction rows as [|y rows IH]; [reflexivity|].
  cbn [filter].
  destruct (String.eqb_spec (pk y) (pk r)) as [E|_]; cbn [negb].
  - exfalso. apply (H y); [now left|exact E].
  - f_equal. apply IH. intros x Hx. apply H. now right.
Qed.

(** Replacing twice under one key leaves what the second write alone
    leaves. *)
Lemma insert_or_replace_twice pk (r r' : A) rows :
  pk r = pk r' ->
  insert_or_replace pk r' (insert_or_replace pk r rows)
  = insert_or_replace pk r' rows.
Proof.
  intros E. unfold insert_or_replace.
  rewrite filter_app. cbn [filter]. rewrite E, String.eqb_refl.
  cbn [negb]. rewrite app_nil_r. f_equal.
  induction rows as [|y rows IH]; [reflexivity|].
  cbn [filter]. destruct (pk y =? pk r')%string eqn:Ey; cbn [negb filter].
  - exact IH.
  - rewrite Ey. cbn [negb]. now rewrite IH.
Qed.

Lemma delete_older_kept (created_at : A -> Z) (cutoff : Z) rows :
  fst (delete_older created_at cutoff rows)
  = filter (fun x => cutoff <=? created_at x) rows.
Proof.
  unfold delete_older. cbn [fst]. apply filter_ext. intros x.
  destruct (Z.ltb_spec (created_at x) cutoff);
    destruct (Z.leb_spec cutoff (created_at x)); (reflexivity || lia).
Qed.

Lemma delete_older_In (created_at : A -> Z) (cutoff : Z) rows (x : A) :
  In x (fst (delete_older created_at cutoff rows))
  <-> In x rows /\ cutoff <= created_at x.
Proof.
  rewrite delete_older_kept, filter_In. now rewrite Z.leb_le.
Qed.

Lemma delete_older_changes (created_at : A -> Z) (cutoff : Z) rows :
  snd (delete_older created_at cutoff rows)
  = Z.of_nat (List.length
                (filter (fun x => created_at x <? cutoff) rows)).
Proof.
  unfold delete_older. cbn [snd].
  induction rows as [|y rows IH]; [reflexivity|].
  cbn [filter]. destruct (created_at y <? cutoff);
    cbn [negb List.length]; lia.
Qed.
End Clauses.

Lemma length_text_nul_free (s : string) :
  Js.all_chars (fun c => negb (Js.code c =? 0)%N) s = true ->
  length_text s = Z.of_nat (String.length s).
Proof.
  induction s as [|c s IH]; [reflexivity|].
  cbn [Js.all_chars length_text String.length]. intros H.
  apply andb_prop in H. destruct H as [Hc Hs].
  apply negb_true_iff in Hc. rewrite Hc, IH by exact Hs. lia.
Qed.

Lemma count_distinct_spec (values : list string) :
  exists distinct,
    NoDup distinct /\
    (forall v, In v distinct <-> In v values) /\
    count_distinct values = Z.of_nat (List.length distinct).
Proof.
  exists (nodup string_dec values). split; [apply NoDup_nodup|].
  split; [intros v; apply nodup_In|reflexivity].
Qed.

End SqlFacts.

(** ** The typed store *)

Module AppFacts.
Import App.

Lemma getTTLTimestamp_local (tz : JsDate.TimeZone) (clock : Z) :
  getTTLTimestamp tz clock
  = JsDate.UTC tz (JsDate.LocalTime tz clock - 25 * JsDate.msPerDay).
Proof.
  unfold getTTLTimestamp.
  replace (JsDate.getDate tz clock - 25)
    with (JsDate.getDate tz clock + -25) by lia.
  rewrite JsDateFacts.setDate_getDate. f_equal; lia.
Qed.

(** Where the offset of the zone never changes, the TTL timestamp lies
    25 days of 24 hours before the clock. *)
Lemma getTTLTimestamp_fixed (offset clock : Z) :
  getTTLTimestamp (JsDate.fixed_zone offset) clock = clock - ttl_ms.
Proof.
  rewrite getTTLTimestamp_local.
  unfold JsDate.UTC, JsDate.LocalTime, JsDate.fixed_zone, ttl_ms,
    JsDate.msPerDay.
  cbn [JsDate.LocalTZA]. lia.
Qed.

Lemma validateType_returns (type t : string) :
  validateType type = Return t -> t = type.
Proof.
  unfold validateType.
  destruct ((String.length type =? 0)%nat || (20 <? String.length type)%nat);
    [discriminate|].
  destruct (negb (test_word type)); [discriminate|].
  now intros [= <-].
Qed.

(** [validateType] accepts the strings of 1 to 20 letters, digits and
    underscores. *)
Lemma validateType_accepts (type : string) :
  validateType type = Return type
  <-> (1 <= String.length type <= 20)%nat /\ all_word_chars type = true.
Proof.
  unfold validateType, test_word.
  destruct (Nat.eqb_spec (String.length type) 0) as [E0|E0];
    destruct (Nat.ltb_spec 20 (String.length type)) as [E20|E20];
    cbn [orb negb andb];
    try (split; [discriminate|intros [? _]; lia]).
  destruct (all_word_chars type); cbn [negb].
  - split; [intros _; split; [lia|reflexivity]|reflexivity].
  - split; [discriminate|intros [_ ?]; discriminate].
Qed.

Lemma ensure_sha256_other_length (userId : string) :
  String.length userId <> 64%nat ->
  ensure_sha256 userId = Sha256.sha256_hex userId.
Proof.
  intros H. unfold ensure_sha256.
  now destruct (Nat.eqb_spec (String.length userId) 64).
Qed.

Lemma ensure_sha256_same_length (userId : string) :
  String.length userId = 64%nat -> ensure_sha256 userId = userId.
Proof. intros H. unfold ensure_sha256. now rewrite H. Qed.

Lemma ensure_sha256_length (userId : string) :
  String.length (ensure_sha256 userId) = 64%nat.
Proof.
  unfold ensure_sha256.
  destruct (Nat.eqb_spec (String.length userId) 64) as [E|E]; cbn [negb].
  - exact E.
  - apply Sha256Facts.sha256_hex_length.
Qed.

(** Identifiers of a length other than 64 reach the table as digests. *)
Lemma ensure_sha256_digest (userId : string) :
  String.length userId <> 64%nat ->
  Sha256.is_digest_hex (ensure_sha256 userId) = true.
Proof.
  intros H. rewrite ensure_sha256_other_length by exact H.
  apply Sha256Facts.sha256_hex_is_digest.
Qed.

Lemma size_of_zero (data : list Byte.byte) : size_of data = 0 <-> data = [].
Proof.
  unfold size_of. destruct data; cbn [List.length]; split;
    (reflexivity || discriminate || lia).
Qed.

(** A request that passes both validations writes one row. *)
Lemma save_stores (rid : string) (clock : Z)
    (type userId objectId : string) (data : list Byte.byte) (db : table) :
  data <> [] -> validateType type = Return type ->
  save rid clock type userId objectId (Some data) db
  = (Sql.insert_or_replace id
       (Row rid objectId (ensure_sha256 userId) type data clock) db,
     Created type (ensure_sha256 userId) objectId (size_of data)
             (clock + ttl_ms)).
Proof.
  intros Hd Ht. unfold save.
  destruct (Z.eqb_spec (size_of data) 0) as [E|_].
  - now apply size_of_zero in E.
  - now rewrite Ht.
Qed.

(** A request that fails a validation leaves the table as it was. *)
Lemma save_rejected (rid : string) (clock : Z)
    (type userId objectId : string) (body : option (list Byte.byte))
    (db : table) (e : string) :
  snd (save rid clock type userId objectId body db) = BadRequest e ->
  fst (save rid clock type userId objectId body db) = db.
Proof.
  unfold save. destruct body as [data|]; [|reflexivity].
  destruct (size_of data =? 0); [reflexivity|].
  destruct (validateType type); [discriminate|reflexivity].
Qed.

(** With a fresh [id] the row is appended, whatever its [objectId]. *)
Lemma save_appends (rid : string) (clock : Z)
    (type userId objectId : string) (data : list Byte.byte) (db : table) :
  data <> [] -> validateType type = Return type ->
  (forall r, In r db -> id r <> rid) ->
  fst (save rid clock type userId objectId (Some data) db)
  = (db ++ [Row rid objectId (ensure_sha256 userId) type data clock])%list.
Proof.
  intros Hd Ht Hfresh. rewrite save_stores by assumption. cbn [fst].
  now apply SqlFacts.insert_or_replace_fresh.
Qed.

(** Saving one key twice under two fresh ids adds two rows. *)
Lemma save_twice_appends (rid1 rid2 : string) (t1 t2 : Z)
    (type userId objectId : string) (data1 data2 : list Byte.byte)
    (db : table) :
  data1 <> [] -> data2 <> [] -> validateType type = Return type ->
  (forall r, In r db -> id r <> rid1 /\ id r <> rid2) -> rid1 <> rid2 ->
  fst (save rid2 t2 type userId objectId (Some data2)
         (fst (save rid1 t1 type userId objectId (Some data1) db)))
  = (db ++ [Row rid1 objectId (ensure_sha256 userId) type data1 t1;
            Row rid2 objectId (ensure_sha256 userId) type data2 t2])%list.
Proof.
  intros H1 H2 Ht Hfresh Hne.
  rewrite (save_appends rid1) by (try assumption; apply Hfresh).
  rewrite save_appends; try assumption.
  - now rewrite <- app_assoc.
  - intros r Hr. apply in_app_or in Hr. destruct Hr as [Hr|[<-|[]]].
    + now apply Hfresh.
    + exact Hne.
Qed.

Lemma ceil_div_spec (a b : Z) :
  0 < b -> (Js.ceil_div a b - 1) * b < a <= Js.ceil_div a b * b.
Proof.
  intros Hb. unfold Js.ceil_div.
  pose proof (Z.div_mod (- a) b ltac:(lia)) as E.
  pose proof (Z.mod_pos_bound (- a) b Hb) as Hr. nia.
Qed.

(** The answer of the fetch route for a valid type. *)
Lemma fetch_listing (tz : JsDate.TimeZone) (clock : Z)
    (type userId : string) (query_page : option string) (db : table) :
  validateType type = Return type ->
  let owner := ensure_sha256 userId in
  let live := filter (visible owner type (getTTLTimestamp tz clock)) db in
  let total := Z.of_nat (List.length live) in
  let page := page_number query_page in
  fetch tz clock type userId query_page db
  = Listing type owner
      (map summarize
         (firstn 10 (skipn (Z.to_nat ((page - 1) * 10))
                           (Sql.order_by_desc created_at live))))
      (Pagination page 10 total (Js.ceil_div total 10)
                  (page <? Js.ceil_div total 10) (1 <? page)).
Proof. intros Ht. unfold fetch. now rewrite Ht. Qed.

(** In a zone with a fixed offset a row older than 25 days is not
    selected by the object route. *)
Lemma object_hides_expired (offset clock : Z) (objectId : string)
    (db : table) :
  (forall r, In r db -> App.objectId r = objectId ->
             created_at r < clock - ttl_ms) ->
  object (JsDate.fixed_zone offset) clock objectId db
  = NotFound "Object not found or expired".
Proof.
  intros H. unfold object. rewrite getTTLTimestamp_fixed.
  destruct (find _ db) as [r|] eqn:E; [|reflexivity].
  apply find_some in E. destruct E as [Hin Hr].
  apply andb_prop in Hr. destruct Hr as [Hk Hc].
  apply String.eqb_eq in Hk. apply Z.leb_le in Hc.
  specialize (H r Hin Hk). lia.
Qed.

(** In a zone with a fixed offset the fetch route answers as if the rows
    older than 25 days were not in the table. *)
Lemma fetch_hides_expired (offset clock : Z) (type userId : string)
    (query_page : option string) (db : table) :
  fetch (JsDate.fixed_zone offset) clock type userId query_page db
  = fetch (JsDate.fixed_zone offset) clock type userId query_page
      (filter (fun r => clock - ttl_ms <=? created_at r) db).
Proof.
  unfold fetch. destruct (validateType type) as [t|]; [|reflexivity].
  rewrite getTTLTimestamp_fixed.
  set (live := filter (visible (ensure_sha256 userId) t (clock - ttl_ms))).
  assert (E : live db
              = live (filter (fun r => clock - ttl_ms <=? created_at r) db)).
  { subst live. induction db as [|r db IH]; [reflexivity|].
    cbn [filter]. unfold visible at 1 3.
    destruct (clock - ttl_ms <=? created_at r) eqn:Ec.
    - cbn [filter]. unfold visible at 2. rewrite Ec.
      destruct (_ && _ && true); [now rewrite IH|exact IH].
    - rewrite andb_false_r. exact IH. }
  now rewrite <- E.
Qed.

(** The validator on the strings of the specification. *)
Example validateType_cases :
  validateType ""
  = Throw "Type must be a string between 1 and 20 characters"
  /\ validateType "21-character-long-tag-x"
     = Throw "Type must be a string between 1 and 20 characters"
  /\ validateType "bad tag!"
     = Throw "Type must contain only letters, numbers, and underscores"
  /\ validateType "valid_Tag1" = Return "valid_Tag1".
Proof. repeat split. Qed.

(** Saving "hello" for the owner "alice" in the category "note": the
    object route returns it, the fetch route lists one object of size 5. *)
Example save_then_read :
  let db := fst (save Scenario.rid1 Scenario.monday_noon "note" "alice" "k1"
                   (Some Scenario.payload_hello) []) in
  object JsDate.utc_zone Scenario.tuesday_noon "k1" db
  = Raw Scenario.payload_hello
  /\ fetch JsDate.utc_zone Scenario.tuesday_noon "note" "alice" (Some "1") db
     = Listing "note" Scenario.alice
         [Summary "k1" 5 Scenario.monday_noon
                  (Scenario.monday_noon + ttl_ms)]
         (Pagination 1 10 1 1 false false).
Proof. vm_compute. split; reflexivity. Qed.

End AppFacts.

(** ** The content-fingerprint store *)

Module FingerprintFacts.
Import Fingerprint.

Lemma save_inserts (clock : Z) (userId data : string) (db : table) :
  data <> "" ->
  let owner := hashUserId userId in
  let key := hashUserId (data ++ owner) in
  save clock userId (Some data) db
  = (Sql.insert_or_replace objectId (Row key owner data clock) db,
     Saved key (clock + 25 * 24 * 60 * 60 * 1000)).
Proof.
  intros Hd. unfold save. destruct data; [congruence|reflexivity].
Qed.

(** Every owner the save route writes is a digest. *)
Lemma save_owner_digest (clock : Z) (userId : string)
    (stringified : option string) (db : table) :
  Forall (fun r => Sha256.is_digest_hex (Fingerprint.userId r) = true) db ->
  Forall (fun r => Sha256.is_digest_hex (Fingerprint.userId r) = true)
         (fst (save clock userId stringified db)).
Proof.
  intros H. unfold save. destruct stringified as [data|]; [|exact H].
  destruct (String.length data =? 0)%nat; [exact H|]. cbn [fst].
  unfold Sql.insert_or_replace. apply Forall_app. split.
  - rewrite Forall_forall in *. intros r Hr.
    apply filter_In in Hr. now apply H.
  - constructor; [|constructor]. apply Sha256Facts.sha256_hex_is_digest.
Qed.

Lemma deleteOldEntries_kept (clock : Z) (db : table) :
  deleteOldEntries clock db
  = filter (fun r => clock - 10 * JsDate.msPerDay <=? created_at r) db.
Proof.
  unfold deleteOldEntries. rewrite SqlFacts.delete_older_kept.
  reflexivity.
Qed.

(** The answer of the fetch route: an error for a page without items. *)
Lemma fetch_page (userId page_param : string) (db : table) :
  let owned :=
    filter (fun r => (Fingerprint.userId r =? hashUserId userId)%string) db in
  let total := Z.of_nat (List.length owned) in
  let page := page_number page_param in
  let items :=
    firstn 30 (skipn (Z.to_nat ((page - 1) * 30))
                     (Sql.order_by_desc created_at owned)) in
  fetch userId page_param db
  = match items with
    | [] => NotFound "No data found"
    | _ :: _ =>
        Page (PageInfo page 30 (Js.ceil_div total 30) total
                       ((page - 1) * 30 + 30 <? total) (1 <? page))
             (map entry items)
    end.
Proof.
  cbv zeta. unfold fetch.
  rewrite SqlFacts.limit_offset_page by lia.
  change (Z.to_nat 30) with 30%nat.
  now destruct (firstn 30 _).
Qed.

End FingerprintFacts.

(* ===================================================================== *)
(** * Part III: the specified properties *)
(* ===================================================================== *)

(** C1, upsert determinism, does not hold of [src/app.js]: two saves of
    the same [(ownerKey, category, key)] with different payloads leave two
    rows. [INSERT OR REPLACE] resolves conflicts on the primary key, which
    is the random [id] and not [objectId]; the object route then still
    answers with the payload of the first save. (In general,
    [AppFacts.save_twice_appends].) *)
Theorem save_same_key_twice_keeps_two_rows :
  Scenario.saved_twice
  = [App.Row Scenario.rid1 "k1" Scenario.alice "note" Scenario.payload_a
             Scenario.monday_noon;
     App.Row Scenario.rid2 "k1" Scenario.alice "note" Scenario.payload_b
             Scenario.tuesday_noon]
  /\ App.object JsDate.utc_zone Scenario.tuesday_noon "k1" Scenario.saved_twice
     = App.Raw Scenario.payload_a.
Proof. vm_compute. split; reflexivity. Qed.

(** C2, owner keys in storage are digests, does not hold of
    [src/app.js]: an identifier of 64 characters is taken for a digest
    whatever its characters, and is stored as it came. (Identifiers of
    other lengths are hashed, [AppFacts.ensure_sha256_digest]; the
    fingerprint store hashes all of them,
    [FingerprintFacts.save_owner_digest].) *)
Theorem save_stores_raw_identifier_of_length_64 :
  String.length Scenario.raw64 = 64%nat
  /\ Sha256.is_digest_hex Scenario.raw64 = false
  /\ Sha256.sha256_hex Scenario.raw64
     = "cc7321cce5e4409bd8077d58422e1214969059bbd40b4eeb0de0a642f40f7282"
  /\ map App.userId
         (fst (App.save Scenario.rid1 Scenario.monday_noon "note"
                 Scenario.raw64 "k1" (Some Scenario.payload_a) []))
     = [Scenario.raw64].
Proof. vm_compute. repeat split; reflexivity. Qed.

(** C3, TTL visibility, does not hold of [src/app.js] where the offset of
    the local zone changed within the last 25 days: [getTTLTimestamp]
    moves the local calendar date back by 25, so that on 2025-11-03 in
    New York the cutoff lies 25 days and one hour before the clock, and a
    row written 25 days and 1 ms ago is returned by the object route and
    counted and listed by the fetch route. (In a zone with a fixed offset
    such a row is hidden: [AppFacts.object_hides_expired],
    [AppFacts.fetch_hides_expired].) *)
Theorem expired_row_visible_after_offset_change :
  let now := Scenario.monday_noon in
  let row := Scenario.expired_row in
  App.created_at row = now - App.ttl_ms - 1
  /\ App.getTTLTimestamp Scenario.new_york now = now - App.ttl_ms - 3600000
  /\ App.object Scenario.new_york now "k1" [row] = App.Raw Scenario.payload_a
  /\ App.fetch Scenario.new_york now "note" "alice" None [row]
     = App.Listing "note" Scenario.alice [App.summarize row]
         (App.Pagination 1 10 1 1 false false).
Proof. vm_compute. repeat split; reflexivity. Qed.

(** C4, sweep correctness, does not hold of the sweepers. The sweeper of
    the fingerprint store deletes the rows older than 10 days: the entry
    that the save route stored with [expiresAt] 25 days ahead is deleted
    by the run eleven days later, although it is younger than 25 days.
    (The sweeper of [src/app.js] keeps to 25 days except where the offset
    of the local zone changed, as the read routes do.) *)
Theorem sweep_deletes_entry_before_its_expiry :
  let saved := Fingerprint.save Scenario.monday_noon "alice" (Some "{}") [] in
  let now := Scenario.eleven_days_later in
  snd saved
  = Fingerprint.Saved
      "f1cf5bcf6168f91e0b52075af567a15e9ca585022606acc2c6b1dc112fbaf604"
      (Scenario.monday_noon + App.ttl_ms)
  /\ map Fingerprint.created_at (fst saved) = [Scenario.monday_noon]
  /\ now - App.ttl_ms <= Scenario.monday_noon
  /\ now < Scenario.monday_noon + App.ttl_ms
  /\ Fingerprint.deleteOldEntries now (fst saved) = [].
Proof.
  vm_compute. repeat split; (reflexivity || discriminate).
Qed.

(** What both sweepers do: a run deletes exactly the rows written before
    its cutoff and keeps the others as they are, in their order. The
    cutoff of [cleanupExpiredItems] is the TTL timestamp of the read
    routes, which is the clock minus 25 days in a zone with a fixed
    offset; the cutoff of [deleteOldEntries] is the clock minus 10 days. *)
Theorem sweep_deletes_exactly_below_cutoff
    (tz : JsDate.TimeZone) (offset clock : Z)
    (db : App.table) (fdb : Fingerprint.table) :
  let cutoff := App.getTTLTimestamp tz clock in
  let swept := App.cleanupExpiredItems tz clock db in
  let fcutoff := clock - 10 * JsDate.msPerDay in
  let fswept := Fingerprint.deleteOldEntries clock fdb in
  (forall r, In r (fst swept) <-> In r db /\ cutoff <= App.created_at r)
  /\ fst swept = filter (fun r => cutoff <=? App.created_at r) db
  /\ snd swept
     = Z.of_nat (List.length (filter (fun r => App.created_at r <? cutoff) db))
  /\ App.getTTLTimestamp (JsDate.fixed_zone offset) clock = clock - App.ttl_ms
  /\ (forall r, In r fswept <-> In r fdb /\ fcutoff <= Fingerprint.created_at r)
  /\ fswept = filter (fun r => fcutoff <=? Fingerprint.created_at r) fdb.
Proof.
  cbv zeta. unfold App.cleanupExpiredItems.
  split; [intros r; apply SqlFacts.delete_older_In|].
  split; [apply SqlFacts.delete_older_kept|].
  split; [apply SqlFacts.delete_older_changes|].
  split; [apply AppFacts.getTTLTimestamp_fixed|].
  rewrite FingerprintFacts.deleteOldEntries_kept. split; [|reflexivity].
  intros r. rewrite filter_In. now rewrite Z.leb_le.
Qed.

(** C5 as stated fails: the fetch route of the fingerprint store answers a
    page beyond the last one with the error 404. *)
Lemma fetch_beyond_last_page_is_an_error :
  List.length Scenario.one_entry = 1%nat
  /\ Fingerprint.fetch "alice" "2" Scenario.one_entry
     = Fingerprint.NotFound "No data found".
Proof. vm_compute. split; reflexivity. Qed.

(** C5, amended: for a page whose offset is a safe integer, the fetch
    route of [src/app.js] skips [(page - 1) * 10] of the live rows of the
    owner and category, newest first, and lists the next 10; beyond the
    last page it lists nothing and [hasNextPage] is false; [totalPages] is
    the least number of pages of 10 that hold [totalObjects]. For such a
    page the fetch route of the fingerprint store skips [(page - 1) * 30]
    rows of the owner and takes 30, but answers "No data found" when no
    row is left; [totalPages] is the least number of pages of 30 that hold
    [totalCount]. *)
Theorem fetch_pagination
    (tz : JsDate.TimeZone) (clock : Z) (type userId : string)
    (query_page : option string) (db : App.table)
    (fuserId page_param : string) (fdb : Fingerprint.table)
    (Htype : App.validateType type = App.Return type)
    (Hoffset : - 2 ^ 53 < (App.page_number query_page - 1) * 10 < 2 ^ 53)
    (Hfoffset :
       - 2 ^ 53 < (Fingerprint.page_number page_param - 1) * 30 < 2 ^ 53) :
  let owner := App.ensure_sha256 userId in
  let live := filter (App.visible owner type (App.getTTLTimestamp tz clock)) db in
  let total := Z.of_nat (List.length live) in
  let page := App.page_number query_page in
  let offset := (page - 1) * 10 in
  let owned :=
    filter (fun r => (Fingerprint.userId r =? Fingerprint.hashUserId fuserId)%string)
           fdb in
  let ftotal := Z.of_nat (List.length owned) in
  let fpage := Fingerprint.page_number page_param in
  let foffset := (fpage - 1) * 30 in
  (exists objects p,
      App.fetch tz clock type userId query_page db
      = App.Listing type owner objects p
      /\ objects
         = map App.summarize
             (firstn 10 (skipn (Z.to_nat offset)
                               (Sql.order_by_desc App.created_at live)))
      /\ App.page p = page /\ App.limit p = 10 /\ App.totalObjects p = total
      /\ (App.totalPages p - 1) * 10 < total <= App.totalPages p * 10
      /\ (total <= offset -> objects = [] /\ App.hasNextPage p = false))
  /\ (ftotal <= foffset ->
      Fingerprint.fetch fuserId page_param fdb
      = Fingerprint.NotFound "No data found")
  /\ (forall info data,
        Fingerprint.fetch fuserId page_param fdb = Fingerprint.Page info data ->
        data
        = map Fingerprint.entry
            (firstn 30 (skipn (Z.to_nat foffset)
                              (Sql.order_by_desc Fingerprint.created_at owned)))
        /\ Fingerprint.page info = fpage /\ Fingerprint.limit info = 30
        /\ Fingerprint.totalCount info = ftotal
        /\ (Fingerprint.totalPages info - 1) * 30 < ftotal
           <= Fingerprint.totalPages info * 30).
Proof.
  cbv zeta. split; [|split].
  - pose proof (AppFacts.fetch_listing tz clock type userId query_page db Htype)
      as E. cbv zeta in E.
    eexists. eexists. split; [exact E|].
    cbn [App.page App.limit App.totalObjects App.totalPages App.hasNextPage].
    repeat (split; [reflexivity|]).
    split; [apply AppFacts.ceil_div_spec; lia|].
    intros Hbeyond. split.
    + rewrite skipn_all2; [reflexivity|].
      rewrite SqlFacts.order_by_desc_length. lia.
    + apply Z.ltb_ge.
      pose proof (AppFacts.ceil_div_spec
                    (Z.of_nat (List.length
                       (filter (App.visible (App.ensure_sha256 userId) type
                                  (App.getTTLTimestamp tz clock)) db))) 10).
      lia.
  - intros Hbeyond. rewrite FingerprintFacts.fetch_page. cbv zeta.
    rewrite skipn_all2; [reflexivity|].
    rewrite SqlFacts.order_by_desc_length. lia.
  - intros info data E. rewrite FingerprintFacts.fetch_page in E.
    cbv zeta in E.
    destruct (firstn 30 _) as [|x items] eqn:Ef in E; [discriminate|].
    injection E as <- <-. rewrite Ef.
    cbn [map Fingerprint.page Fingerprint.limit Fingerprint.totalCount
         Fingerprint.totalPages].
    repeat (split; [reflexivity|]).
    apply AppFacts.ceil_div_spec. lia.
Qed.

Lemma fetch_pagination_witness :
  App.validateType "note" = App.Return "note"
  /\ exists objects p,
      App.fetch JsDate.utc_zone Scenario.tuesday_noon "note" "alice"
                (Some "2") Scenario.saved_twice
      = App.Listing "note" Scenario.alice objects p
      /\ objects = [] /\ App.hasNextPage p = false /\ App.totalPages p = 1.
Proof.
  split; [reflexivity|].
  assert (Hoffset : - 2 ^ 53 < (App.page_number (Some "2") - 1) * 10 < 2 ^ 53)
    by (vm_compute; split; reflexivity).
  assert (Hfoffset : - 2 ^ 53 < (Fingerprint.page_number "2" - 1) * 30 < 2 ^ 53)
    by (vm_compute; split; reflexivity).
  destruct (fetch_pagination JsDate.utc_zone Scenario.tuesday_noon "note"
              "alice" (Some "2") Scenario.saved_twice "alice" "2"
              Scenario.one_entry eq_refl Hoffset Hfoffset)
    as [(objects & p & E & Hobjects & _ & _ & Htotal & Hpages & Hlast) _].
  exists objects, p. split; [exact E|].
  assert (Hcount : App.totalObjects p = 2).
  { rewrite Htotal. vm_compute. reflexivity. }
  rewrite <- Htotal in Hlast, Hpages. rewrite Hcount in Hlast, Hpages.
  destruct Hlast as [Hnil Hnext].
  - vm_compute. discriminate.
  - repeat split; [exact Hnil|exact Hnext|lia].
Defined.

(** C6: the owner identifier of a request is kept unchanged when it is a
    string of 64 hexadecimal characters, and is replaced by the SHA-256
    hex digest of the identifier when its length is not 64. *)
Theorem ensure_sha256_passes_canonical_keys (key raw : string)
    (Hlen : String.length key = 64%nat)
    (Hhex : Js.all_chars Js.is_hex key = true)
    (Hraw : String.length raw <> 64%nat) :
  App.ensure_sha256 key = key
  /\ App.ensure_sha256 raw = Sha256.sha256_hex raw.
Proof.
  split.
  - now apply AppFacts.ensure_sha256_same_length.
  - now apply AppFacts.ensure_sha256_other_length.
Qed.

Lemma ensure_sha256_passes_canonical_keys_witness :
  App.ensure_sha256 Scenario.hex64 = Scenario.hex64
  /\ App.ensure_sha256 "alice" = Scenario.alice.
Proof.
  destruct (ensure_sha256_passes_canonical_keys Scenario.hex64 "alice")
    as [Hkey Hraw].
  - reflexivity.
  - reflexivity.
  - vm_compute. discriminate.
  - split; [exact Hkey|]. rewrite Hraw. vm_compute. reflexivity.
Defined.

(** C7 as stated fails: for a payload of nine characters, one of them
    above U+007F, the server route reports the size 9, where the payload
    has 10 bytes. *)
Lemma server_total_size_is_not_in_bytes :
  map Fingerprint.entry Scenario.accent_entry = [Scenario.accent_json]
  /\ Fingerprint.totalSize (Fingerprint.server Scenario.accent_entry) = Some 9
  /\ List.length (Js.utf8 Scenario.accent_json) = 10%nat.
Proof. vm_compute. repeat split; reflexivity. Qed.

(** C7, amended: the server route reports the number of rows of the
    table, the number of distinct owners, and the sum of the lengths of
    the entries in characters, as [LENGTH] counts them on a text (the
    characters before the first NUL); the sum is null on the empty
    table. *)
Theorem server_aggregates (db : Fingerprint.table) :
  let s := Fingerprint.server db in
  Fingerprint.totalEntries s = Z.of_nat (List.length db)
  /\ (exists owners,
         NoDup owners
         /\ (forall u, In u owners
                       <-> exists r, In r db /\ Fingerprint.userId r = u)
         /\ Fingerprint.totalUsers s = Z.of_nat (List.length owners))
  /\ Fingerprint.totalSize s
     = match db with
       | [] => None
       | _ :: _ =>
           Some (fold_right
                   (fun r acc => Sql.length_text (Fingerprint.entry r) + acc)
                   0 db)
       end.
Proof.
  cbv zeta. unfold Fingerprint.server.
  cbn [Fingerprint.totalEntries Fingerprint.totalUsers Fingerprint.totalSize].
  split; [reflexivity|]. split.
  - destruct (SqlFacts.count_distinct_spec (map Fingerprint.userId db))
      as (owners & Hnodup & Hin & Hcount).
    exists owners. split; [exact Hnodup|]. split; [|exact Hcount].
    intros u. rewrite Hin, in_map_iff. split.
    + intros (r & Hr & Hin'). now exists r.
    + intros (r & Hin' & Hr). now exists r.
  - assert (E : fold_right Z.add 0
                  (map (fun r => Sql.length_text (Fingerprint.entry r)) db)
                = fold_right
                    (fun r acc => Sql.length_text (Fingerprint.entry r) + acc)
                    0 db).
    { induction db as [|r db IH]; [reflexivity|].
      cbn [map fold_right]. now rewrite IH. }
    unfold Sql.sum. destruct db as [|r db]; [reflexivity|].
    cbn [map]. cbn [map] in E. now rewrite E.
Qed.

(** C8: a save with an empty payload is answered by the error
    "No data provided", and a save that fails the validation of the
    payload or of the type is answered by an error 400 and leaves the
    table as it was. *)
Theorem save_validation_fails_fast
    (rid : string) (clock : Z) (type userId objectId : string)
    (body : option (list Byte.byte)) (db : App.table)
    (Hfail : body = None \/ body = Some []
             \/ App.validateType type <> App.Return type) :
  exists e,
    App.save rid clock type userId objectId body db = (db, App.BadRequest e)
    /\ (body = Some [] -> e = "No data provided").
Proof.
  unfold App.save. destruct body as [data|].
  - destruct data as [|b data].
    + eexists. split; [reflexivity|reflexivity].
    + destruct Hfail as [Hnone|[Hempty|Htype]]; try discriminate.
      replace (App.size_of (b :: data) =? 0) with false.
      * destruct (App.validateType type) as [t|message] eqn:Ev.
        -- apply AppFacts.validateType_returns in Ev as Et. subst t.
           now contradiction Htype.
        -- eexists. split; [reflexivity|discriminate].
      * symmetry. apply Z.eqb_neq. unfold App.size_of. cbn [List.length]. lia.
  - eexists. split; [reflexivity|discriminate].
Qed.

Lemma save_validation_fails_fast_witness :
  App.save Scenario.rid2 Scenario.tuesday_noon "note" "alice" "k1" (Some [])
           Scenario.saved_once
  = (Scenario.saved_once, App.BadRequest "No data provided")
  /\ fst (App.save Scenario.rid2 Scenario.tuesday_noon "bad tag!" "alice" "k1"
            (Some Scenario.payload_b) Scenario.saved_once)
     = Scenario.saved_once.
Proof.
  split.
  - destruct (save_validation_fails_fast Scenario.rid2 Scenario.tuesday_noon
                "note" "alice" "k1" (Some []) Scenario.saved_once)
      as (e & E & He).
    + right. left. reflexivity.
    + rewrite E, (He eq_refl). reflexivity.
  - destruct (save_validation_fails_fast Scenario.rid2 Scenario.tuesday_noon
                "bad tag!" "alice" "k1" (Some Scenario.payload_b)
                Scenario.saved_once)
      as (e & E & _).
    + right. right. vm_compute. discriminate.
    + rewrite E. reflexivity.
Defined.

(** C9: in the fingerprint store the key of an entry is the SHA-256 digest
    of the payload followed by the owner key, so that saving one payload
    twice for one owner leaves one row under that key, which differs from
    the row of the first save in [created_at] only; the rows under other
    keys are not touched, and the table is the one the second save alone
    would have left. *)
Theorem fingerprint_save_is_idempotent
    (t1 t2 : Z) (userId data : string) (db : Fingerprint.table)
    (Hdata : data <> "") :
  let owner := Sha256.sha256_hex userId in
  let key := Sha256.sha256_hex (data ++ owner) in
  let has_key := fun r => (Fingerprint.objectId r =? key)%string in
  let first := Fingerprint.save t1 userId (Some data) db in
  let second := Fingerprint.save t2 userId (Some data) (fst first) in
  snd first = Fingerprint.Saved key (t1 + App.ttl_ms)
  /\ snd second = Fingerprint.Saved key (t2 + App.ttl_ms)
  /\ filter has_key (fst first) = [Fingerprint.Row key owner data t1]
  /\ filter has_key (fst second) = [Fingerprint.Row key owner data t2]
  /\ filter (fun r => negb (has_key r)) (fst second)
     = filter (fun r => negb (has_key r)) db
  /\ fst second = fst (Fingerprint.save t2 userId (Some data) db).
Proof.
  cbv zeta. rewrite !FingerprintFacts.save_inserts by exact Hdata.
  cbv zeta. cbn [fst snd]. unfold Fingerprint.hashUserId.
  set (owner := Sha256.sha256_hex userId).
  set (key := Sha256.sha256_hex (data ++ owner)).
  repeat split.
  - apply (SqlFacts.insert_or_replace_key Fingerprint.objectId
             (Fingerprint.Row key owner data t1)).
  - apply (SqlFacts.insert_or_replace_key Fingerprint.objectId
             (Fingerprint.Row key owner data t2)).
  - rewrite (SqlFacts.insert_or_replace_others Fingerprint.objectId
               (Fingerprint.Row key owner data t2)).
    apply (SqlFacts.insert_or_replace_others Fingerprint.objectId
             (Fingerprint.Row key owner data t1)).
  - now apply SqlFacts.insert_or_replace_twice.
Qed.

Lemma fingerprint_save_is_idempotent_witness :
  fst (Fingerprint.save Scenario.tuesday_noon "alice" (Some "{}")
         Scenario.one_entry)
  = [Fingerprint.Row
       "f1cf5bcf6168f91e0b52075af567a15e9ca585022606acc2c6b1dc112fbaf604"
       Scenario.alice "{}" Scenario.tuesday_noon].
Proof.
  destruct (fingerprint_save_is_idempotent Scenario.monday_noon
              Scenario.tuesday_noon "alice" "{}" [])
    as (_ & _ & _ & _ & _ & E).
  - discriminate.
  - unfold Scenario.one_entry. rewrite E. vm_compute. reflexivity.
Defined.



(* ===================================================================== *)
(** * Part IV: further properties of the two stores *)
(* ===================================================================== *)

(** ** More on the SQL clauses *)

Module SqlLaws.
Import Sql.

Section Clauses.
Context {A : Type}.
Implicit Types (rows : list A) (key : A -> Z).

Lemma sorted_tail (R : A -> A -> Prop) (x : A) rows :
  Sorted R (x :: rows) -> Sorted R rows.
Proof. now inversion 1. Qed.

Lemma sorted_skipn (R : A -> A -> Prop) (n : nat) rows :
  Sorted R rows -> Sorted R (skipn n rows).
Proof.
  revert rows. induction n as [|n IH]; intros rows Hs; [exact Hs|].
  destruct rows as [|x rows]; [exact Hs|].
  cbn [skipn]. apply IH. now apply sorted_tail in Hs.
Qed.

Lemma sorted_firstn (R : A -> A -> Prop) (n : nat) rows :
  Sorted R rows -> Sorted R (firstn n rows).
Proof.
  revert rows. induction n as [|n IH]; intros rows Hs; [constructor|].
  destruct rows as [|x rows]; [constructor|].
  cbn [firstn]. inversion Hs as [|? ? Hs' Hhd]; subst.
  constructor; [now apply IH|].
  destruct Hhd as [|y rows Hy]; [destruct n; constructor|].
  destruct n; cbn [firstn]; constructor. exact Hy.
Qed.

Lemma sorted_map {B : Type} (f : A -> B) (R : B -> B -> Prop) rows :
  Sorted (fun x y => R (f x) (f y)) rows -> Sorted R (map f rows).
Proof.
  induction 1 as [|x rows Hs IH Hhd]; cbn [map]; constructor.
  - exact IH.
  - destruct Hhd; cbn [map]; constructor. assumption.
Qed.

(** A row newer than all the others, inserted last, is selected first. *)
Lemma order_by_desc_newest key rows (x : A) :
  (forall y, In y rows -> key y < key x) ->
  order_by_desc key (rows ++ [x]) = x :: order_by_desc key rows.
Proof.
  induction rows as [|y rows IH]; intros Hnew; [reflexivity|].
  cbn [app]. unfold order_by_desc in *. cbn [fold_right].
  rewrite IH by (intros z Hz; apply Hnew; now right).
  cbn [insert_desc].
  pose proof (Hnew y (or_introl eq_refl)) as Hy.
  destruct (Z.leb_spec (key x) (key y)); [lia|reflexivity].
Qed.

Lemma page_length (n m : nat) rows :
  List.length (firstn n (skipn m rows)) = Nat.min n (List.length rows - m).
Proof. now rewrite length_firstn, length_skipn. Qed.

Lemma filter_insert_or_replace_fresh (pk : A -> string) (p : A -> bool)
    (r : A) rows :
  (forall x, In x rows -> pk x <> pk r) ->
  filter p (insert_or_replace pk r rows)
  = (filter p rows ++ if p r then [r] else [])%list.
Proof.
  intros H. rewrite SqlFacts.insert_or_replace_fresh by exact H.
  rewrite filter_app. cbn [filter]. now destruct (p r).
Qed.

Lemma filter_twice (second first : A -> bool) rows :
  filter second (filter first rows)
  = filter (fun x => first x && second x) rows.
Proof.
  induction rows as [|x rows IH]; [reflexivity|].
  cbn [filter]. destruct (first x); cbn [andb filter].
  - destruct (second x); now rewrite IH.
  - exact IH.
Qed.

End Clauses.
End SqlLaws.

(** ** More on the typed store *)

Module AppLaws.
Import App.

Lemma all_word_chars_forall (s : string) :
  all_word_chars s = true
  <-> forall c, In c (list_ascii_of_string s) -> is_word_char c = true.
Proof.
  induction s as [|c s IH]; cbn [all_word_chars list_ascii_of_string].
  - split; [intros _ c []|reflexivity].
  - rewrite andb_true_iff, IH. split.
    + intros [Hc Hs] c' [<-|Hin]; [exact Hc|now apply Hs].
    + intros H. split; [apply H; now left|].
      intros c' Hin. apply H. now right.
Qed.

Lemma ensure_sha256_idempotent (userId : string) :
  ensure_sha256 (ensure_sha256 userId) = ensure_sha256 userId.
Proof.
  apply AppFacts.ensure_sha256_same_length, AppFacts.ensure_sha256_length.
Qed.

(** The rows a fetch selects, before and after a sweep at the same clock. *)
Lemma visible_after_sweep (tz : JsDate.TimeZone) (clock : Z)
    (owner type : string) (db : table) :
  filter (visible owner type (getTTLTimestamp tz clock))
         (fst (cleanupExpiredItems tz clock db))
  = filter (visible owner type (getTTLTimestamp tz clock)) db.
Proof.
  unfold cleanupExpiredItems, table. cbv zeta.
  rewrite SqlFacts.delete_older_kept.
  rewrite SqlLaws.filter_twice. apply filter_ext. intros r.
  unfold visible. destruct (getTTLTimestamp tz clock <=? created_at r).
  - reflexivity.
  - now rewrite andb_false_r.
Qed.

Lemma find_app_none {A : Type} (p : A -> bool) (l l' : list A) :
  (forall x, In x l -> p x = false) -> find p (l ++ l') = find p l'.
Proof.
  induction l as [|x l IH]; intros H; [reflexivity|].
  cbn [app find]. rewrite (H x (or_introl eq_refl)).
  apply IH. intros y Hy. apply H. now right.
Qed.

Lemma find_filter_ext {A : Type} (p q : A -> bool) (l : list A) :
  (forall x, p x = true -> q x = true) ->
  find p (filter q l) = find p l.
Proof.
  intros H. induction l as [|x l IH]; [reflexivity|].
  cbn [filter find]. destruct (q x) eqn:Eq; cbn [find].
  - now rewrite IH.
  - destruct (p x) eqn:Ep; [|exact IH].
    apply H in Ep. congruence.
Qed.

End AppLaws.

(** X1. [validateType] returns its argument for the strings of 1 to 20
    characters that are all letters, digits or underscores, and for no
    other string; a length out of range is reported before a character out
    of the class. *)
Theorem validateType_characterized (type : string) :
  (App.validateType type = App.Return type
   <-> (1 <= String.length type <= 20)%nat
       /\ forall c, In c (list_ascii_of_string type) ->
                    App.is_word_char c = true)
  /\ ((String.length type = 0 \/ 20 < String.length type)%nat ->
      App.validateType type
      = App.Throw "Type must be a string between 1 and 20 characters")
  /\ ((1 <= String.length type <= 20)%nat ->
      (exists c, In c (list_ascii_of_string type)
                 /\ App.is_word_char c = false) ->
      App.validateType type
      = App.Throw "Type must contain only letters, numbers, and underscores")
  /\ (forall t, App.validateType type = App.Return t -> t = type).
Proof.
  split; [|split; [|split]].
  - rewrite AppFacts.validateType_accepts.
    now rewrite AppLaws.all_word_chars_forall.
  - intros H. unfold App.validateType.
    destruct (Nat.eqb_spec (String.length type) 0);
      destruct (Nat.ltb_spec 20 (String.length type));
      cbn [orb]; (reflexivity || lia).
  - intros Hlen (c & Hin & Hc). unfold App.validateType, App.test_word.
    destruct (Nat.eqb_spec (String.length type) 0); [lia|].
    destruct (Nat.ltb_spec 20 (String.length type)); [lia|].
    cbn [orb negb andb].
    destruct (App.all_word_chars type) eqn:E; [|reflexivity].
    rewrite AppLaws.all_word_chars_forall in E.
    rewrite (E c Hin) in Hc. discriminate.
  - apply AppFacts.validateType_returns.
Qed.

Lemma validateType_characterized_witness :
  App.validateType "a b"
  = App.Throw "Type must contain only letters, numbers, and underscores"
  /\ App.validateType "abcdefghijklmnopqrstu"
     = App.Throw "Type must be a string between 1 and 20 characters"
  /\ App.validateType "abcdefghijklmnopqrst_"
     = App.Throw "Type must be a string between 1 and 20 characters"
  /\ App.validateType "Tag_9" = App.Return "Tag_9".
Proof.
  split; [|split; [|split]].
  - apply (proj1 (proj2 (proj2 (validateType_characterized "a b")))).
    + cbn. lia.
    + exists " "%char. split; [cbn; tauto|reflexivity].
  - apply (proj1 (proj2 (validateType_characterized "abcdefghijklmnopqrstu"))).
    right. cbn. lia.
  - apply (proj1 (proj2 (validateType_characterized "abcdefghijklmnopqrst_"))).
    right. cbn. lia.
  - apply (proj1 (validateType_characterized "Tag_9")). split.
    + cbn. lia.
    + intros c Hc. cbn in Hc.
      repeat (destruct Hc as [<-|Hc]; [reflexivity|]). destruct Hc.
Defined.

(** X2. The TTL timestamp differs from the clock minus 25 days of 24 hours
    by the difference between the offset of the zone now and the offset by
    which the local time 25 days earlier is read. *)
Theorem getTTLTimestamp_drift (tz : JsDate.TimeZone) (clock : Z) :
  let local := clock + JsDate.LocalTZA tz clock true in
  App.getTTLTimestamp tz clock
  = clock - App.ttl_ms
    + (JsDate.LocalTZA tz clock true
       - JsDate.LocalTZA tz (local - App.ttl_ms) false).
Proof.
  cbv zeta. rewrite AppFacts.getTTLTimestamp_local.
  unfold JsDate.UTC, JsDate.LocalTime, App.ttl_ms, JsDate.msPerDay.
  replace (clock + JsDate.LocalTZA tz clock true - 25 * 86400000)
    with (clock + JsDate.LocalTZA tz clock true - 25 * 24 * 60 * 60 * 1000)
    by lia.
  lia.
Qed.

(** X3. In a zone with a fixed offset, an object saved under an objectId
    that no row of the table has is returned by the object route as long
    as the clock is not past the [expiresAt] of the save, and is not found
    afterwards. *)
Theorem saved_object_readable_until_expiry
    (offset : Z) (rid : string) (clock clock' : Z)
    (type userId objectId : string) (data : list Byte.byte) (db : App.table)
    (Hdata : data <> []) (Htype : App.validateType type = App.Return type)
    (Hnew : forall r, In r db -> App.objectId r <> objectId) :
  exists owner size expiresAt,
    snd (App.save rid clock type userId objectId (Some data) db)
    = App.Created type owner objectId size expiresAt
    /\ App.object (JsDate.fixed_zone offset) clock' objectId
         (fst (App.save rid clock type userId objectId (Some data) db))
       = if clock' <=? expiresAt then App.Raw data
         else App.NotFound "Object not found or expired".
Proof.
  rewrite AppFacts.save_stores by assumption. cbn [fst snd].
  do 3 eexists. split; [reflexivity|].
  unfold App.object. rewrite AppFacts.getTTLTimestamp_fixed.
  unfold Sql.insert_or_replace. rewrite AppLaws.find_app_none.
  - cbn [find App.objectId App.created_at App.data].
    rewrite String.eqb_refl. cbn [andb].
    destruct (Z.leb_spec (clock' - App.ttl_ms) clock);
      destruct (Z.leb_spec clock' (clock + App.ttl_ms));
      (reflexivity || lia).
  - intros r Hr. apply filter_In in Hr. destruct Hr as [Hr _].
    apply andb_false_iff. left. apply String.eqb_neq. now apply Hnew.
Qed.

Lemma saved_object_readable_until_expiry_witness :
  App.object JsDate.utc_zone (Scenario.monday_noon + App.ttl_ms) "k1"
             Scenario.saved_once
  = App.Raw Scenario.payload_a
  /\ App.object JsDate.utc_zone (Scenario.monday_noon + App.ttl_ms + 1) "k1"
                Scenario.saved_once
     = App.NotFound "Object not found or expired".
Proof.
  split.
  - destruct (saved_object_readable_until_expiry 0 Scenario.rid1
                Scenario.monday_noon (Scenario.monday_noon + App.ttl_ms)
                "note" "alice" "k1" Scenario.payload_a [])
      as (owner & size & e & Hs & Ho).
    + discriminate.
    + reflexivity.
    + intros r [].
    + injection Hs as _ _ <-. exact Ho.
  - destruct (saved_object_readable_until_expiry 0 Scenario.rid1
                Scenario.monday_noon (Scenario.monday_noon + App.ttl_ms + 1)
                "note" "alice" "k1" Scenario.payload_a [])
      as (owner & size & e & Hs & Ho).
    + discriminate.
    + reflexivity.
    + intros r [].
    + injection Hs as _ _ <-. exact Ho.
Defined.

(** X4. The object route answers "not found" exactly when no row with the
    objectId is as new as the TTL timestamp, and the data it returns are
    those of such a row of the table. *)
Theorem object_answers_a_live_row
    (tz : JsDate.TimeZone) (clock : Z) (objectId : string) (db : App.table) :
  let cutoff := App.getTTLTimestamp tz clock in
  (App.object tz clock objectId db = App.NotFound "Object not found or expired"
   <-> forall r, In r db -> App.objectId r = objectId ->
                 App.created_at r < cutoff)
  /\ (forall d, App.object tz clock objectId db = App.Raw d ->
        exists r, In r db /\ App.objectId r = objectId
                  /\ cutoff <= App.created_at r /\ App.data r = d)
  /\ (App.object tz clock objectId db = App.NotFound "Object not found or expired"
      \/ exists d, App.object tz clock objectId db = App.Raw d).
Proof.
  cbv zeta. unfold App.object.
  destruct (find _ db) as [r|] eqn:E.
  - apply find_some in E as E'. destruct E' as [Hin Hr].
    apply andb_prop in Hr. destruct Hr as [Hk Hc].
    apply String.eqb_eq in Hk. apply Z.leb_le in Hc.
    split; [|split].
    + split; [discriminate|]. intros H. specialize (H r Hin Hk). lia.
    + intros d [= <-]. now exists r.
    + right. now exists (App.data r).
  - split; [|split].
    + split; [|reflexivity]. intros _ r Hin Hk.
      pose proof (find_none _ _ E r Hin) as Hr. cbv beta in Hr.
      apply andb_false_iff in Hr. destruct Hr as [Hr|Hr].
      * apply String.eqb_neq in Hr. contradiction.
      * apply Z.leb_gt in Hr. exact Hr.
    + discriminate.
    + now left.
Qed.

(** ** Listings of the typed store *)

Module ListingLaws.
Import App.

(** The row at position [i] is on the page that starts at [m] when
    [m <= i < m + n]. *)
Lemma in_page {A : Type} (n m i : nat) (l : list A) (x : A) :
  nth_error l i = Some x -> (m <= i < m + n)%nat ->
  In x (firstn n (skipn m l)).
Proof.
  intros Hx Hi. apply (nth_error_In _ (i - m)).
  rewrite nth_error_firstn.
  destruct (Nat.ltb_spec (i - m) n) as [_|]; [|lia].
  rewrite nth_error_skipn. now replace (m + (i - m))%nat with i by lia.
Qed.

Lemma find_app_last {A : Type} (p : A -> bool) (l : list A) (x : A) :
  p x = false -> find p (l ++ [x]) = find p l.
Proof.
  intros Hx. induction l as [|y l IH]; cbn [app find].
  - now rewrite Hx.
  - destruct (p y); [reflexivity|exact IH].
Qed.

(** What a save does to the table: nothing, or one insertion. *)
Lemma save_cases (rid : string) (clock : Z) (type userId objectId : string)
    (body : option (list Byte.byte)) (db : table) :
  fst (save rid clock type userId objectId body db) = db
  \/ exists data,
       body = Some data /\ data <> [] /\ validateType type = Return type
       /\ fst (save rid clock type userId objectId body db)
          = Sql.insert_or_replace id
              (Row rid objectId (ensure_sha256 userId) type data clock) db.
Proof.
  destruct body as [data|]; [|now left].
  destruct data as [|b data]; [now left|].
  destruct (validateType type) as [t|m] eqn:Ev.
  - right. exists (b :: data).
    apply AppFacts.validateType_returns in Ev as Et. subst t.
    split; [reflexivity|]. split; [discriminate|]. split; [reflexivity|].
    now rewrite AppFacts.save_stores.
  - left. unfold save. cbn [size_of List.length].
    replace (Z.of_nat (S (List.length data)) =? 0) with false
      by (symmetry; apply Z.eqb_neq; lia).
    now rewrite Ev.
Qed.

(** The fetch route reads the table through the rows it selects. *)
Lemma fetch_ext (tz : JsDate.TimeZone) (clock : Z) (type userId : string)
    (query_page : option string) (db db' : table) :
  filter (visible (ensure_sha256 userId) type (getTTLTimestamp tz clock)) db
  = filter (visible (ensure_sha256 userId) type (getTTLTimestamp tz clock)) db' ->
  fetch tz clock type userId query_page db
  = fetch tz clock type userId query_page db'.
Proof.
  intros E. unfold fetch. destruct (validateType type) as [t|] eqn:Ev;
    [|reflexivity].
  apply AppFacts.validateType_returns in Ev. subst t. now rewrite E.
Qed.

Lemma total_pages_bounds (total page : Z) :
  0 <= total ->
  (page < Js.ceil_div total 10 <-> page * 10 < total).
Proof.
  intros H. pose proof (AppFacts.ceil_div_spec total 10 ltac:(lia)). lia.
Qed.

End ListingLaws.

(** X5. For a page whose offset is a safe integer, the objects of a
    listing are ordered by [createdAt], newest first, and a page from 1 on
    holds 10 objects, or those that remain after the pages before it. *)
Theorem fetch_lists_newest_first
    (tz : JsDate.TimeZone) (clock : Z) (type userId : string)
    (query_page : option string) (db : App.table)
    (Htype : App.validateType type = App.Return type)
    (Hoffset : - 2 ^ 53 < (App.page_number query_page - 1) * 10 < 2 ^ 53) :
  exists objects p,
    App.fetch tz clock type userId query_page db
    = App.Listing type (App.ensure_sha256 userId) objects p
    /\ Sorted (fun a b => App.s_createdAt b <= App.s_createdAt a) objects
    /\ (List.length objects <= 10)%nat
    /\ (1 <= App.page p ->
        Z.of_nat (List.length objects)
        = Z.min 10 (Z.max 0 (App.totalObjects p - (App.page p - 1) * 10))).
Proof.
  pose proof (AppFacts.fetch_listing tz clock type userId query_page db Htype)
    as E. cbv zeta in E.
  eexists. eexists. split; [exact E|].
  cbn [App.page App.totalObjects]. split; [|split].
  - apply SqlLaws.sorted_map.
    apply SqlLaws.sorted_firstn, SqlLaws.sorted_skipn.
    apply (SqlFacts.order_by_desc_sorted App.created_at).
  - rewrite length_map, SqlLaws.page_length. lia.
  - intros Hpage. rewrite length_map, SqlLaws.page_length.
    rewrite SqlFacts.order_by_desc_length. lia.
Qed.

Lemma fetch_lists_newest_first_witness :
  exists objects p,
    App.fetch JsDate.utc_zone Scenario.tuesday_noon "note" "alice" None
              Scenario.saved_twice
    = App.Listing "note" Scenario.alice objects p
    /\ Sorted (fun a b => App.s_createdAt b <= App.s_createdAt a) objects
    /\ List.length objects = 2%nat.
Proof.
  assert (Hoffset : - 2 ^ 53 < (App.page_number None - 1) * 10 < 2 ^ 53)
    by (vm_compute; split; reflexivity).
  destruct (fetch_lists_newest_first JsDate.utc_zone Scenario.tuesday_noon
              "note" "alice" None Scenario.saved_twice eq_refl Hoffset)
    as (objects & p & E & Hsorted & _ & Hlen).
  exists objects, p. split; [exact E|]. split; [exact Hsorted|].
  assert (Hp : p = App.Pagination 1 10 2 1 false false).
  { vm_compute in E. now injection E. }
  subst p. cbn [App.page App.totalObjects] in Hlen. lia.
Defined.

(** X6. For a page whose offset is a safe integer, every object of a
    listing is the summary of a row of the table that belongs to the owner
    and the type asked for and is as new as the TTL timestamp: its size is
    the length of the data and its [expiresAt] lies 25 days after its
    [createdAt]. *)
Theorem fetch_lists_live_rows_of_the_owner
    (tz : JsDate.TimeZone) (clock : Z) (type userId : string)
    (query_page : option string) (db : App.table)
    (Htype : App.validateType type = App.Return type)
    (Hoffset : - 2 ^ 53 < (App.page_number query_page - 1) * 10 < 2 ^ 53) :
  exists objects p,
    App.fetch tz clock type userId query_page db
    = App.Listing type (App.ensure_sha256 userId) objects p
    /\ forall s, In s objects ->
         exists r,
           In r db
           /\ App.userId r = App.ensure_sha256 userId
           /\ App.type r = type
           /\ App.getTTLTimestamp tz clock <= App.created_at r
           /\ s = App.Summary (App.objectId r)
                              (Z.of_nat (List.length (App.data r)))
                              (App.created_at r)
                              (App.created_at r + App.ttl_ms).
Proof.
  pose proof (AppFacts.fetch_listing tz clock type userId query_page db Htype)
    as E. cbv zeta in E.
  eexists. eexists. split; [exact E|].
  intros s Hs. apply in_map_iff in Hs. destruct Hs as (r & <- & Hr).
  exists r.
  assert (Hsel : In r (Sql.order_by_desc App.created_at
                         (filter (App.visible (App.ensure_sha256 userId) type
                                    (App.getTTLTimestamp tz clock)) db))).
  { rewrite <- (firstn_skipn (Z.to_nat ((App.page_number query_page - 1) * 10))).
    apply in_or_app. right.
    rewrite <- (firstn_skipn 10 (skipn _ _)). apply in_or_app. now left. }
  apply SqlFacts.order_by_desc_In, filter_In in Hsel.
  destruct Hsel as [Hin Hv]. unfold App.visible in Hv.
  apply andb_prop in Hv. destruct Hv as [Hv Hc].
  apply andb_prop in Hv. destruct Hv as [Hu Ht].
  apply String.eqb_eq in Hu, Ht. apply Z.leb_le in Hc.
  repeat split; assumption.
Qed.

Lemma fetch_lists_live_rows_of_the_owner_witness :
  exists objects p,
    App.fetch JsDate.utc_zone Scenario.tuesday_noon "note" "alice" None
              Scenario.saved_twice
    = App.Listing "note" Scenario.alice objects p
    /\ forall s, In s objects -> App.s_size s = 1.
Proof.
  assert (Hoffset : - 2 ^ 53 < (App.page_number None - 1) * 10 < 2 ^ 53)
    by (vm_compute; split; reflexivity).
  destruct (fetch_lists_live_rows_of_the_owner JsDate.utc_zone
              Scenario.tuesday_noon "note" "alice" None Scenario.saved_twice
              eq_refl Hoffset)
    as (objects & p & E & Hall).
  exists objects, p. split; [exact E|].
  intros s Hs. destruct (Hall s Hs) as (r & Hin & _ & _ & _ & ->).
  cbn [App.s_size].
  destruct Hin as [<-|[<-|[]]]; reflexivity.
Defined.

(** X7. Every row of the owner and type that is as new as the TTL
    timestamp is listed on one of the pages 1 to [totalPages]. *)
Theorem every_live_row_is_on_a_page
    (tz : JsDate.TimeZone) (clock : Z) (type userId : string)
    (db : App.table) (r : App.row)
    (Htype : App.validateType type = App.Return type)
    (Hin : In r db)
    (Huser : App.userId r = App.ensure_sha256 userId)
    (Hrtype : App.type r = type)
    (Hlive : App.getTTLTimestamp tz clock <= App.created_at r) :
  exists n objects p,
    App.fetch tz clock type userId (Some (Js.decimal n)) db
    = App.Listing type (App.ensure_sha256 userId) objects p
    /\ 1 <= n <= App.totalPages p
    /\ App.page p = n
    /\ In (App.summarize r) objects.
Proof.
  set (live := filter (App.visible (App.ensure_sha256 userId) type
                         (App.getTTLTimestamp tz clock)) db).
  assert (Hsel : In r (Sql.order_by_desc App.created_at live)).
  { apply SqlFacts.order_by_desc_In, filter_In. split; [exact Hin|].
    unfold App.visible. rewrite Huser, Hrtype, !String.eqb_refl.
    cbn [andb]. now apply Z.leb_le. }
  apply In_nth_error in Hsel. destruct Hsel as [i Hi].
  assert (Hlt : (i < List.length live)%nat).
  { rewrite <- (SqlFacts.order_by_desc_length App.created_at).
    apply nth_error_Some. congruence. }
  set (n := Z.of_nat (i / 10) + 1).
  assert (Hn : App.page_number (Some (Js.decimal n)) = n).
  { unfold App.page_number, Js.to_string.
    rewrite JsFacts.parseInt_decimal by (auto; subst n; lia).
    unfold Js.or_default. destruct (Z.eqb_spec n 0); [subst n; lia|reflexivity]. }
  pose proof (AppFacts.fetch_listing tz clock type userId
                (Some (Js.decimal n)) db Htype) as E.
  cbv zeta in E. rewrite Hn in E. fold live in E.
  exists n. eexists. eexists. split; [exact E|].
  cbn [App.page App.totalPages].
  pose proof (Nat.div_mod_eq i 10) as Hdm.
  pose proof (Nat.mod_upper_bound i 10 ltac:(lia)) as Hmod.
  split; [|split; [reflexivity|]].
  - split; [subst n; lia|].
    assert (n - 1 < Js.ceil_div (Z.of_nat (List.length live)) 10); [|lia].
    apply ListingLaws.total_pages_bounds; subst n; lia.
  - apply in_map. apply (ListingLaws.in_page _ _ i); [exact Hi|].
    replace (Z.to_nat ((n - 1) * 10)) with (10 * (i / 10))%nat
      by (subst n; lia).
    lia.
Qed.

Lemma every_live_row_is_on_a_page_witness :
  exists n objects p,
    App.fetch JsDate.utc_zone Scenario.tuesday_noon "note" "alice"
              (Some (Js.decimal n)) Scenario.saved_twice
    = App.Listing "note" Scenario.alice objects p
    /\ In (App.Summary "k1" 1 Scenario.tuesday_noon
                       (Scenario.tuesday_noon + App.ttl_ms)) objects.
Proof.
  destruct (every_live_row_is_on_a_page JsDate.utc_zone Scenario.tuesday_noon
              "note" "alice" Scenario.saved_twice
              (App.Row Scenario.rid2 "k1" Scenario.alice "note"
                       Scenario.payload_b Scenario.tuesday_noon))
    as (n & objects & p & E & _ & _ & Hin).
  - reflexivity.
  - vm_compute. right. left. reflexivity.
  - vm_compute. reflexivity.
  - reflexivity.
  - vm_compute. discriminate.
  - exists n, objects, p. split; [exact E|exact Hin].
Defined.

(** X8. For a page from 0 on whose offset and whose successor's offset are
    safe integers, [hasNextPage] is true exactly when the following page
    lists at least one object. *)
Theorem hasNextPage_iff_next_page_lists
    (tz : JsDate.TimeZone) (clock : Z) (type userId : string)
    (query_page query_next : option string) (db : App.table)
    (Htype : App.validateType type = App.Return type)
    (Hpage : 0 <= App.page_number query_page)
    (Hnext : App.page_number query_next = App.page_number query_page + 1)
    (Hoffset : App.page_number query_page * 10 < 2 ^ 53) :
  exists objects p objects' p',
    App.fetch tz clock type userId query_page db
    = App.Listing type (App.ensure_sha256 userId) objects p
    /\ App.fetch tz clock type userId query_next db
       = App.Listing type (App.ensure_sha256 userId) objects' p'
    /\ (App.hasNextPage p = true <-> objects' <> []).
Proof.
  pose proof (AppFacts.fetch_listing tz clock type userId query_page db Htype)
    as E. cbv zeta in E.
  pose proof (AppFacts.fetch_listing tz clock type userId query_next db Htype)
    as E'. cbv zeta in E'. rewrite Hnext in E'.
  do 4 eexists. split; [exact E|]. split; [exact E'|].
  cbn [App.hasNextPage].
  set (page := App.page_number query_page) in *.
  set (sorted := Sql.order_by_desc App.created_at _).
  assert (Hlen : List.length sorted
                 = List.length
                     (filter (App.visible (App.ensure_sha256 userId) type
                                (App.getTTLTimestamp tz clock)) db))
    by apply SqlFacts.order_by_desc_length.
  rewrite Z.ltb_lt, ListingLaws.total_pages_bounds by lia.
  rewrite <- Hlen.
  replace (page + 1 - 1) with page by lia.
  split.
  - intros Hlt Hnil. apply (f_equal (@List.length _)) in Hnil.
    rewrite length_map, SqlLaws.page_length in Hnil. cbn [List.length] in Hnil.
    lia.
  - intros Hne. destruct (Z.ltb_spec (page * 10) (Z.of_nat (List.length sorted)))
      as [Hlt|Hge]; [exact Hlt|].
    exfalso. apply Hne. rewrite skipn_all2 by lia. reflexivity.
Qed.

Lemma hasNextPage_iff_next_page_lists_witness :
  exists objects p objects' p',
    App.fetch JsDate.utc_zone Scenario.tuesday_noon "note" "alice"
              (Some "1") Scenario.saved_twice
    = App.Listing "note" Scenario.alice objects p
    /\ App.fetch JsDate.utc_zone Scenario.tuesday_noon "note" "alice"
                 (Some "2") Scenario.saved_twice
       = App.Listing "note" Scenario.alice objects' p'
    /\ (App.hasNextPage p = true <-> objects' <> []).
Proof.
  apply (hasNextPage_iff_next_page_lists JsDate.utc_zone Scenario.tuesday_noon
           "note" "alice" (Some "1") (Some "2") Scenario.saved_twice).
  - reflexivity.
  - vm_compute. discriminate.
  - reflexivity.
  - vm_compute. reflexivity.
Defined.

(** X9. A save under a fresh id changes neither the listing of another
    owner or another type nor the answer of the object route for another
    objectId. *)
Theorem save_leaves_other_owners_alone
    (rid : string) (clock : Z) (type userId objectId : string)
    (body : option (list Byte.byte)) (db : App.table)
    (tz : JsDate.TimeZone) (clock' : Z) (type' userId' objectId' : string)
    (query_page : option string)
    (Hfresh : forall r, In r db -> App.id r <> rid)
    (Hother : App.ensure_sha256 userId' <> App.ensure_sha256 userId
              \/ type' <> type)
    (Hobject : objectId' <> objectId) :
  App.fetch tz clock' type' userId' query_page
            (fst (App.save rid clock type userId objectId body db))
  = App.fetch tz clock' type' userId' query_page db
  /\ App.object tz clock' objectId'
                (fst (App.save rid clock type userId objectId body db))
     = App.object tz clock' objectId' db.
Proof.
  destruct (ListingLaws.save_cases rid clock type userId objectId body db)
    as [->|(data & _ & _ & _ & ->)]; [split; reflexivity|].
  rewrite SqlFacts.insert_or_replace_fresh by exact Hfresh. split.
  - apply ListingLaws.fetch_ext. rewrite filter_app. cbn [filter].
    replace (App.visible _ _ _ _) with false; [apply app_nil_r|].
    symmetry. unfold App.visible. cbn [App.userId App.type].
    destruct Hother as [H|H].
    + replace (_ =? App.ensure_sha256 userId')%string with false;
        [reflexivity|].
      symmetry. apply String.eqb_neq. congruence.
    + replace (type =? type')%string with false;
        [now rewrite andb_false_r|].
      symmetry. apply String.eqb_neq. congruence.
  - unfold App.object. rewrite ListingLaws.find_app_last; [reflexivity|].
    cbn [App.objectId]. apply andb_false_iff. left.
    apply String.eqb_neq. congruence.
Qed.

Lemma save_leaves_other_owners_alone_witness :
  App.fetch JsDate.utc_zone Scenario.tuesday_noon "note" "bob" None
            Scenario.saved_twice
  = App.fetch JsDate.utc_zone Scenario.tuesday_noon "note" "bob" None
              Scenario.saved_once
  /\ App.object JsDate.utc_zone Scenario.tuesday_noon "k2" Scenario.saved_twice
     = App.object JsDate.utc_zone Scenario.tuesday_noon "k2"
                  Scenario.saved_once.
Proof.
  apply (save_leaves_other_owners_alone Scenario.rid2 Scenario.tuesday_noon
           "note" "alice" "k1" (Some Scenario.payload_b) Scenario.saved_once
           JsDate.utc_zone Scenario.tuesday_noon "note" "bob" "k2" None).
  - vm_compute. intros r [<-|[]]. discriminate.
  - left. vm_compute. discriminate.
  - discriminate.
Defined.

(** X10. An accepted save under a fresh id adds one to [totalObjects] of
    the listing of its owner and type, whatever its objectId, when read at
    a clock whose TTL timestamp is not past the save, for a page whose
    offset is a safe integer. *)
Theorem save_adds_one_to_the_listing
    (rid : string) (clock : Z) (type userId objectId : string)
    (data : list Byte.byte) (db : App.table)
    (tz : JsDate.TimeZone) (clock' : Z) (query_page : option string)
    (Hdata : data <> []) (Htype : App.validateType type = App.Return type)
    (Hfresh : forall r, In r db -> App.id r <> rid)
    (Hlive : App.getTTLTimestamp tz clock' <= clock)
    (Hoffset : - 2 ^ 53 < (App.page_number query_page - 1) * 10 < 2 ^ 53) :
  exists objects p objects' p',
    App.fetch tz clock' type userId query_page db
    = App.Listing type (App.ensure_sha256 userId) objects p
    /\ App.fetch tz clock' type userId query_page
         (fst (App.save rid clock type userId objectId (Some data) db))
       = App.Listing type (App.ensure_sha256 userId) objects' p'
    /\ App.totalObjects p' = App.totalObjects p + 1.
Proof.
  rewrite AppFacts.save_appends by assumption.
  pose proof (AppFacts.fetch_listing tz clock' type userId query_page db Htype)
    as E. cbv zeta in E.
  pose proof (AppFacts.fetch_listing tz clock' type userId query_page
                (db ++ [App.Row rid objectId (App.ensure_sha256 userId) type
                                data clock])%list Htype) as E'.
  cbv zeta in E'.
  do 4 eexists. split; [exact E|]. split; [exact E'|].
  cbn [App.totalObjects]. rewrite filter_app. cbn [filter].
  unfold App.visible at 2. cbn [App.userId App.type App.created_at].
  rewrite !String.eqb_refl.
  replace (App.getTTLTimestamp tz clock' <=? clock) with true
    by (symmetry; now apply Z.leb_le).
  cbn [andb]. rewrite length_app. cbn [List.length]. lia.
Qed.

Lemma save_adds_one_to_the_listing_witness :
  exists objects p objects' p',
    App.fetch JsDate.utc_zone Scenario.tuesday_noon "note" "alice" None
              Scenario.saved_once
    = App.Listing "note" Scenario.alice objects p
    /\ App.fetch JsDate.utc_zone Scenario.tuesday_noon "note" "alice" None
                 Scenario.saved_twice
       = App.Listing "note" Scenario.alice objects' p'
    /\ App.totalObjects p' = App.totalObjects p + 1.
Proof.
  destruct (save_adds_one_to_the_listing Scenario.rid2 Scenario.tuesday_noon
              "note" "alice" "k1" Scenario.payload_b Scenario.saved_once
              JsDate.utc_zone Scenario.tuesday_noon None)
    as (objects & p & objects' & p' & E & E' & Hcount).
  - discriminate.
  - reflexivity.
  - vm_compute. intros r [<-|[]]. discriminate.
  - vm_compute. discriminate.
  - vm_compute. split; reflexivity.
  - exists objects, p, objects', p'.
    split; [exact E|]. split; [exact E'|exact Hcount].
Defined.

(** X11. A sweep changes no answer of the read routes at its own clock:
    the rows it deletes are those the routes no longer select. *)
Theorem sweep_is_invisible_to_readers
    (tz : JsDate.TimeZone) (clock : Z) (type userId objectId : string)
    (query_page : option string) (db : App.table) :
  App.fetch tz clock type userId query_page
            (fst (App.cleanupExpiredItems tz clock db))
  = App.fetch tz clock type userId query_page db
  /\ App.object tz clock objectId (fst (App.cleanupExpiredItems tz clock db))
     = App.object tz clock objectId db.
Proof.
  split.
  - apply ListingLaws.fetch_ext, AppLaws.visible_after_sweep.
  - unfold App.object, App.cleanupExpiredItems, App.table. cbv zeta.
    rewrite SqlFacts.delete_older_kept.
    rewrite AppLaws.find_filter_ext; [reflexivity|].
    intros r Hr. apply andb_prop in Hr. now destruct Hr.
Qed.

(** X12. A sweep removes nothing when run again at the same clock, and
    the rows it keeps and the number it reports add up to the rows it
    found. *)
Theorem sweep_is_idempotent
    (tz : JsDate.TimeZone) (clock : Z) (db : App.table) :
  let swept := App.cleanupExpiredItems tz clock db in
  App.cleanupExpiredItems tz clock (fst swept) = (fst swept, 0)
  /\ 0 <= snd swept
  /\ Z.of_nat (List.length (fst swept)) + snd swept
     = Z.of_nat (List.length db).
Proof.
  cbv zeta. unfold App.cleanupExpiredItems, Sql.delete_older. cbn [fst snd].
  set (keep := fun x => negb (App.created_at x <? App.getTTLTimestamp tz clock)).
  assert (Hidem : filter keep (filter keep db) = filter keep db).
  { rewrite SqlLaws.filter_twice. apply filter_ext. intros r.
    now destruct (keep r). }
  pose proof (filter_length_le keep db) as Hle. clearbody keep.
  split; [|split].
  - rewrite Hidem, Z.sub_diag. reflexivity.
  - lia.
  - lia.
Qed.

(** X13. The owner key answered by a save can be used in place of the
    identifier it was derived from: the fetch and the save routes answer
    the same for both. *)
Theorem canonical_owner_key_is_accepted
    (tz : JsDate.TimeZone) (rid : string) (clock : Z)
    (type userId objectId : string) (query_page : option string)
    (body : option (list Byte.byte)) (db : App.table) :
  App.fetch tz clock type (App.ensure_sha256 userId) query_page db
  = App.fetch tz clock type userId query_page db
  /\ App.save rid clock type (App.ensure_sha256 userId) objectId body db
     = App.save rid clock type userId objectId body db.
Proof.
  unfold App.fetch, App.save.
  now rewrite AppLaws.ensure_sha256_idempotent.
Qed.

(** X14. A page parameter that reads as a number below 1 whose offset is
    a safe integer lists the objects of the first page, with the same
    totals, and [hasPrevPage] false. *)
Theorem page_below_one_lists_the_first_page
    (tz : JsDate.TimeZone) (clock : Z) (type userId : string)
    (query_page : option string) (db : App.table)
    (Htype : App.validateType type = App.Return type)
    (Hpage : App.page_number query_page <= 1)
    (Hoffset : - 2 ^ 53 < (App.page_number query_page - 1) * 10) :
  exists objects p p1,
    App.fetch tz clock type userId query_page db
    = App.Listing type (App.ensure_sha256 userId) objects p
    /\ App.fetch tz clock type userId (Some "1") db
       = App.Listing type (App.ensure_sha256 userId) objects p1
    /\ App.page p = App.page_number query_page
    /\ App.totalObjects p = App.totalObjects p1
    /\ App.totalPages p = App.totalPages p1
    /\ App.hasPrevPage p = false.
Proof.
  pose proof (AppFacts.fetch_listing tz clock type userId query_page db Htype)
    as E. cbv zeta in E.
  pose proof (AppFacts.fetch_listing tz clock type userId (Some "1") db Htype)
    as E1. cbv zeta in E1.
  change (App.page_number (Some "1")) with 1 in E1.
  change (Z.to_nat ((1 - 1) * 10)) with 0%nat in E1.
  replace (Z.to_nat ((App.page_number query_page - 1) * 10)) with 0%nat in E
    by lia.
  do 3 eexists. split; [exact E|]. split; [exact E1|].
  cbn [App.page App.totalObjects App.totalPages App.hasPrevPage].
  repeat (split; [reflexivity|]). apply Z.ltb_ge. exact Hpage.
Qed.

Lemma page_below_one_lists_the_first_page_witness :
  App.page_number (Some "-3") = -3
  /\ exists objects p p1,
      App.fetch JsDate.utc_zone Scenario.tuesday_noon "note" "alice"
                (Some "-3") Scenario.saved_twice
      = App.Listing "note" Scenario.alice objects p
      /\ App.fetch JsDate.utc_zone Scenario.tuesday_noon "note" "alice"
                   (Some "1") Scenario.saved_twice
         = App.Listing "note" Scenario.alice objects p1
      /\ App.hasPrevPage p = false.
Proof.
  split; [reflexivity|].
  destruct (page_below_one_lists_the_first_page JsDate.utc_zone
              Scenario.tuesday_noon "note" "alice" (Some "-3")
              Scenario.saved_twice)
    as (objects & p & p1 & E & E1 & _ & _ & _ & Hprev).
  - reflexivity.
  - vm_compute. discriminate.
  - vm_compute. reflexivity.
  - exists objects, p, p1.
    split; [exact E|]. split; [exact E1|exact Hprev].
Defined.

(** X15. An accepted save under a fresh id, newer than every row of the
    table, is the first object of the first page of the listing of its
    owner and type, with the size of its payload and the [expiresAt] the
    save answered. *)
Theorem saved_object_is_listed_first
    (rid : string) (clock : Z) (type userId objectId : string)
    (data : list Byte.byte) (db : App.table)
    (tz : JsDate.TimeZone) (clock' : Z) (query_page : option string)
    (Hdata : data <> []) (Htype : App.validateType type = App.Return type)
    (Hfresh : forall r, In r db -> App.id r <> rid)
    (Hnewest : forall r, In r db -> App.created_at r < clock)
    (Hlive : App.getTTLTimestamp tz clock' <= clock)
    (Hpage : App.page_number query_page = 1) :
  exists owner size expiresAt rest p,
    snd (App.save rid clock type userId objectId (Some data) db)
    = App.Created type owner objectId size expiresAt
    /\ App.fetch tz clock' type userId query_page
         (fst (App.save rid clock type userId objectId (Some data) db))
       = App.Listing type owner
           (App.Summary objectId size clock expiresAt :: rest) p.
Proof.
  rewrite AppFacts.save_stores by assumption. cbn [fst snd].
  do 5 eexists. split; [reflexivity|].
  rewrite SqlFacts.insert_or_replace_fresh by exact Hfresh.
  rewrite (AppFacts.fetch_listing _ _ _ _ _ _ Htype). cbv zeta.
  rewrite Hpage. change (Z.to_nat ((1 - 1) * 10)) with 0%nat.
  rewrite filter_app. cbn [filter skipn].
  unfold App.visible at 2. cbn [App.userId App.type App.created_at].
  rewrite !String.eqb_refl.
  replace (App.getTTLTimestamp tz clock' <=? clock) with true
    by (symmetry; now apply Z.leb_le).
  cbn [andb]. rewrite SqlLaws.order_by_desc_newest.
  - cbn [firstn map App.summarize App.objectId App.data App.created_at].
    reflexivity.
  - intros r Hr. apply filter_In in Hr. cbn [App.created_at].
    apply Hnewest. now destruct Hr.
Qed.

Lemma saved_object_is_listed_first_witness :
  exists rest p,
    App.fetch JsDate.utc_zone Scenario.tuesday_noon "note" "alice" None
              Scenario.saved_twice
    = App.Listing "note" Scenario.alice
        (App.Summary "k1" 1 Scenario.tuesday_noon
                     (Scenario.tuesday_noon + App.ttl_ms) :: rest) p.
Proof.
  destruct (saved_object_is_listed_first Scenario.rid2 Scenario.tuesday_noon
              "note" "alice" "k1" Scenario.payload_b Scenario.saved_once
              JsDate.utc_zone Scenario.tuesday_noon None)
    as (owner & size & e & rest & p & Hs & E).
  - discriminate.
  - reflexivity.
  - intros r Hr. vm_compute in Hr. destruct Hr as [<-|[]]. discriminate.
  - intros r Hr. vm_compute in Hr. destruct Hr as [<-|[]]. reflexivity.
  - vm_compute. discriminate.
  - reflexivity.
  - vm_compute in Hs. injection Hs as <- <- <-.
    exists rest, p. exact E.
Defined.

(** ** More on the content-fingerprint store *)

Module FingerprintLaws.
Import Fingerprint.

Lemma distinct_keys_filter (keep : row -> bool) (db : table) :
  NoDup (map objectId db) -> NoDup (map objectId (filter keep db)).
Proof.
  induction db as [|r db IH]; intros Hkeys; [exact Hkeys|].
  apply NoDup_cons_iff in Hkeys. destruct Hkeys as [Hr Hdb].
  cbn [filter]. destruct (keep r); [|now apply IH].
  cbn [map]. apply NoDup_cons; [|now apply IH].
  contradict Hr. apply in_map_iff in Hr. destruct Hr as (r' & E & Hin).
  apply in_map_iff. exists r'. split; [exact E|]. now apply filter_In in Hin.
Qed.

(** The table after a save that passes the check of the data. *)
Lemma save_table (clock : Z) (userId data : string) (db : table) :
  data <> "" ->
  fst (save clock userId (Some data) db)
  = (filter (fun r => negb (objectId r
                            =? hashUserId (data ++ hashUserId userId))%string)
            db
     ++ [Row (hashUserId (data ++ hashUserId userId)) (hashUserId userId)
             data clock])%list.
Proof.
  intros Hd. now rewrite FingerprintFacts.save_inserts.
Qed.

Lemma save_outcomes (clock : Z) (userId : string) (stringified : option string)
    (db : table) :
  fst (save clock userId stringified db) = db
  \/ exists data,
       stringified = Some data /\ data <> ""
       /\ fst (save clock userId stringified db)
          = fst (save clock userId (Some data) db).
Proof.
  destruct stringified as [data|]; [|now left].
  destruct data as [|c data]; [now left|].
  right. exists (String c data). now repeat split.
Qed.

End FingerprintLaws.

(** X16. The table of the fingerprint store keeps its keys distinct and
    holds digests only: a save and a sweep of a table whose objectIds are
    pairwise distinct and whose objectIds and userIds have the shape of a
    SHA-256 hex digest leave such a table. *)
Theorem fingerprint_table_invariant
    (clock : Z) (userId : string) (stringified : option string)
    (db : Fingerprint.table)
    (Hkeys : NoDup (map Fingerprint.objectId db))
    (Hdigests :
       Forall (fun r => Sha256.is_digest_hex (Fingerprint.objectId r) = true
                        /\ Sha256.is_digest_hex (Fingerprint.userId r) = true)
              db) :
  let saved := fst (Fingerprint.save clock userId stringified db) in
  let swept := Fingerprint.deleteOldEntries clock db in
  NoDup (map Fingerprint.objectId saved)
  /\ Forall (fun r => Sha256.is_digest_hex (Fingerprint.objectId r) = true
                      /\ Sha256.is_digest_hex (Fingerprint.userId r) = true)
            saved
  /\ NoDup (map Fingerprint.objectId swept)
  /\ Forall (fun r => Sha256.is_digest_hex (Fingerprint.objectId r) = true
                      /\ Sha256.is_digest_hex (Fingerprint.userId r) = true)
            swept.
Proof.
  cbv zeta. split; [|split; [|split]].
  - destruct (FingerprintLaws.save_outcomes clock userId stringified db)
      as [->|(data & _ & Hd & ->)]; [exact Hkeys|].
    rewrite FingerprintLaws.save_table by exact Hd.
    rewrite map_app. cbn [map Fingerprint.objectId].
    apply NoDup_app.
    + now apply FingerprintLaws.distinct_keys_filter.
    + repeat constructor. intros [].
    + intros k Hk [<-|[]]. apply in_map_iff in Hk.
      destruct Hk as (r & Hr & Hin). apply filter_In in Hin.
      destruct Hin as [_ Hne]. apply negb_true_iff, String.eqb_neq in Hne.
      contradiction.
  - destruct (FingerprintLaws.save_outcomes clock userId stringified db)
      as [->|(data & _ & Hd & ->)]; [exact Hdigests|].
    rewrite FingerprintLaws.save_table by exact Hd.
    apply Forall_app. split.
    + rewrite Forall_forall in *. intros r Hr. apply filter_In in Hr.
      now apply Hdigests.
    + constructor; [|constructor]. cbn [Fingerprint.objectId Fingerprint.userId].
      split; apply Sha256Facts.sha256_hex_is_digest.
  - rewrite FingerprintFacts.deleteOldEntries_kept.
    now apply FingerprintLaws.distinct_keys_filter.
  - rewrite FingerprintFacts.deleteOldEntries_kept.
    rewrite Forall_forall in *. intros r Hr. apply filter_In in Hr.
    now apply Hdigests.
Qed.

Lemma fingerprint_table_invariant_witness :
  NoDup (map Fingerprint.objectId
             (fst (Fingerprint.save Scenario.tuesday_noon "alice" (Some "[1]")
                     Scenario.one_entry)))
  /\ NoDup (map Fingerprint.objectId
                (Fingerprint.deleteOldEntries Scenario.tuesday_noon
                   Scenario.one_entry)).
Proof.
  destruct (fingerprint_table_invariant Scenario.tuesday_noon "alice"
              (Some "[1]") Scenario.one_entry)
    as (Hsaved & _ & Hswept & _).
  - vm_compute. repeat constructor. intros [].
  - vm_compute. repeat constructor.
  - split; [exact Hsaved|exact Hswept].
Defined.

(** X17. For a page from 1 on that begins before the last row of the
    owner, the fetch route of the fingerprint store answers that page with
    30 entries, or those that remain, and [hasNextPage] is true exactly
    when the following page is not answered by "No data found". *)
Theorem fingerprint_fetch_answers_a_page
    (userId page_param next_param : string) (db : Fingerprint.table) :
  let owned :=
    filter (fun r =>
              (Fingerprint.userId r =? Fingerprint.hashUserId userId)%string)
           db in
  let total := Z.of_nat (List.length owned) in
  let page := Fingerprint.page_number page_param in
  forall (Hpage : 1 <= page)
         (Hnext : Fingerprint.page_number next_param = page + 1)
         (Hbegin : (page - 1) * 30 < total),
  exists info items,
    Fingerprint.fetch userId page_param db = Fingerprint.Page info items
    /\ Z.of_nat (List.length items) = Z.min 30 (total - (page - 1) * 30)
    /\ Fingerprint.page info = page
    /\ page <= Fingerprint.totalPages info
    /\ (Fingerprint.hasNextPage info = true
        <-> Fingerprint.fetch userId next_param db
            <> Fingerprint.NotFound "No data found").
Proof.
  cbv zeta. intros Hpage Hnext Hbegin.
  rewrite !FingerprintFacts.fetch_page. cbv zeta. rewrite Hnext.
  set (owned := filter _ db) in *.
  set (sorted := Sql.order_by_desc Fingerprint.created_at owned).
  set (page := Fingerprint.page_number page_param) in *.
  assert (Hlen : List.length sorted = List.length owned)
    by apply SqlFacts.order_by_desc_length.
  assert (Hitems : List.length
                     (firstn 30 (skipn (Z.to_nat ((page - 1) * 30)) sorted))
                   = Z.to_nat (Z.min 30 (Z.of_nat (List.length owned)
                                        - (page - 1) * 30))).
  { rewrite SqlLaws.page_length, Hlen. lia. }
  assert (Hnextlen : List.length
                       (firstn 30 (skipn (Z.to_nat ((page + 1 - 1) * 30)) sorted))
                     = Z.to_nat (Z.min 30 (Z.of_nat (List.length owned)
                                          - page * 30))).
  { rewrite SqlLaws.page_length, Hlen. lia. }
  destruct (firstn 30 (skipn (Z.to_nat ((page - 1) * 30)) sorted))
    as [|x items] eqn:Ef.
  { cbn [List.length] in Hitems. lia. }
  do 2 eexists. split; [reflexivity|].
  cbn [Fingerprint.page Fingerprint.totalPages Fingerprint.hasNextPage].
  split; [rewrite length_map; lia|]. split; [reflexivity|]. split.
  - pose proof (AppFacts.ceil_div_spec (Z.of_nat (List.length owned)) 30
                  ltac:(lia)). lia.
  - rewrite Z.ltb_lt.
    destruct (firstn 30 (skipn (Z.to_nat ((page + 1 - 1) * 30)) sorted))
      as [|y next] eqn:En; cbn [List.length] in Hnextlen.
    + split; [lia|]. intros H. now contradiction H.
    + split; [discriminate|]. intros _. lia.
Qed.

Lemma fingerprint_fetch_answers_a_page_witness :
  exists info,
    Fingerprint.fetch "alice" "1" Scenario.one_entry
    = Fingerprint.Page info ["{}"]
    /\ Fingerprint.hasNextPage info = false.
Proof.
  destruct (fingerprint_fetch_answers_a_page "alice" "1" "2"
              Scenario.one_entry)
    as (info & items & E & _ & _ & _ & Hnext).
  - vm_compute. discriminate.
  - reflexivity.
  - vm_compute. reflexivity.
  - assert (E' : Fingerprint.fetch "alice" "1" Scenario.one_entry
                 = Fingerprint.Page
                     (Fingerprint.PageInfo 1 30 1 1 false false) ["{}"])
      by (vm_compute; reflexivity).
    rewrite E' in E. injection E as <- <-.
    eexists. split; [exact E'|reflexivity].
Defined.

(** X18. An entry saved later than every row of the table is the first
    entry of the first page of its owner. *)
Theorem fingerprint_saved_entry_is_fetched_first
    (clock : Z) (userId data page_param : string) (db : Fingerprint.table)
    (Hdata : data <> "")
    (Hnewest : forall r, In r db -> Fingerprint.created_at r < clock)
    (Hpage : Fingerprint.page_number page_param = 1) :
  exists info rest,
    Fingerprint.fetch userId page_param
      (fst (Fingerprint.save clock userId (Some data) db))
    = Fingerprint.Page info (data :: rest)
    /\ Fingerprint.page info = 1
    /\ 1 <= Fingerprint.totalCount info.
Proof.
  rewrite FingerprintLaws.save_table by exact Hdata.
  rewrite FingerprintFacts.fetch_page. cbv zeta. rewrite Hpage.
  change (Z.to_nat ((1 - 1) * 30)) with 0%nat. cbn [skipn].
  rewrite filter_app. cbn [filter Fingerprint.userId].
  rewrite String.eqb_refl.
  rewrite SqlLaws.order_by_desc_newest.
  - cbn [firstn map Fingerprint.entry].
    do 2 eexists. split; [reflexivity|].
    cbn [Fingerprint.page Fingerprint.totalCount]. split; [reflexivity|].
    rewrite length_app. cbn [List.length]. lia.
  - intros r Hr. apply filter_In in Hr. destruct Hr as [Hr _].
    apply filter_In in Hr. cbn [Fingerprint.created_at].
    apply Hnewest. now destruct Hr.
Qed.

Lemma fingerprint_saved_entry_is_fetched_first_witness :
  exists info rest,
    Fingerprint.fetch "alice" "1"
      (fst (Fingerprint.save Scenario.tuesday_noon "alice" (Some "[1]")
              Scenario.one_entry))
    = Fingerprint.Page info ("[1]" :: rest).
Proof.
  destruct (fingerprint_saved_entry_is_fetched_first Scenario.tuesday_noon
              "alice" "[1]" "1" Scenario.one_entry)
    as (info & rest & E & _).
  - discriminate.
  - intros r Hr. vm_compute in Hr. destruct Hr as [<-|[]]. reflexivity.
  - reflexivity.
  - exists info, rest. exact E.
Defined.

(** X19. Saving a payload again for the same owner leaves the statistics
    of the server route as they were after the first save. *)
Theorem fingerprint_resave_keeps_statistics
    (t1 t2 : Z) (userId data : string) (db : Fingerprint.table)
    (Hdata : data <> "") :
  let first := fst (Fingerprint.save t1 userId (Some data) db) in
  let second := fst (Fingerprint.save t2 userId (Some data) first) in
  Fingerprint.server second = Fingerprint.server first.
Proof.
  cbv zeta.
  rewrite (FingerprintFacts.save_inserts t2) by exact Hdata. cbv zeta.
  rewrite (FingerprintFacts.save_inserts t1) by exact Hdata. cbv zeta.
  cbn [fst]. rewrite SqlFacts.insert_or_replace_twice by reflexivity.
  unfold Fingerprint.server, Sql.insert_or_replace.
  cbn [Fingerprint.objectId].
  rewrite !length_app, !map_app. reflexivity.
Qed.

Lemma fingerprint_resave_keeps_statistics_witness :
  Fingerprint.server
    (fst (Fingerprint.save Scenario.tuesday_noon "alice" (Some "{}")
            Scenario.one_entry))
  = Fingerprint.Stats 1 1 (Some 2).
Proof.
  unfold Scenario.one_entry.
  rewrite (fingerprint_resave_keeps_statistics Scenario.monday_noon
             Scenario.tuesday_noon "alice" "{}" []).
  - vm_compute. reflexivity.
  - discriminate.
Defined.

(** X20. Saving a payload under a key that no row of the table has adds
    one to [totalEntries] and the length of the payload to [totalSize]. *)
Theorem fingerprint_save_grows_statistics
    (clock : Z) (userId data : string) (db : Fingerprint.table)
    (Hdata : data <> "")
    (Hnew : forall r, In r db ->
              Fingerprint.objectId r
              <> Fingerprint.hashUserId
                   (data ++ Fingerprint.hashUserId userId)) :
  let before := Fingerprint.server db in
  let after := Fingerprint.server
                 (fst (Fingerprint.save clock userId (Some data) db)) in
  Fingerprint.totalEntries after = Fingerprint.totalEntries before + 1
  /\ Fingerprint.totalSize after
     = Some (match Fingerprint.totalSize before with
             | Some size => size
             | None => 0
             end + Sql.length_text data).
Proof.
  cbv zeta. rewrite FingerprintFacts.save_inserts by exact Hdata.
  cbv zeta. cbn [fst].
  rewrite SqlFacts.insert_or_replace_fresh by exact Hnew.
  unfold Fingerprint.server.
  cbn [Fingerprint.totalEntries Fingerprint.totalSize].
  rewrite length_app, map_app. cbn [List.length map Fingerprint.entry].
  split; [lia|].
  assert (Hsum : forall l x,
             fold_right Z.add 0 (l ++ [x]) = fold_right Z.add 0 l + x).
  { induction l as [|y l IH]; intros x; cbn [app fold_right]; [lia|].
    rewrite IH. lia. }
  unfold Sql.sum. rewrite Hsum.
  destruct (map _ db) as [|y l] eqn:Em; cbn [app]; reflexivity.
Qed.

Lemma fingerprint_save_grows_statistics_witness :
  Fingerprint.totalEntries (Fingerprint.server Scenario.one_entry) = 1
  /\ Fingerprint.totalSize (Fingerprint.server Scenario.one_entry) = Some 2.
Proof.
  destruct (fingerprint_save_grows_statistics Scenario.monday_noon "alice"
              "{}" []) as [Hentries Hsize].
  - discriminate.
  - intros r [].
  - split; [exact Hentries|exact Hsize].
Defined.

(** X21. Every entry the fetch route of the fingerprint store returns is
    the entry of a row of the table whose userId is the digest of the
    identifier asked for, and a page has at most 30 entries. *)
Theorem fingerprint_fetch_returns_entries_of_the_owner
    (userId page_param : string) (db : Fingerprint.table)
    (info : Fingerprint.page_info) (items : list string)
    (Hpage : Fingerprint.fetch userId page_param db
             = Fingerprint.Page info items) :
  (1 <= List.length items <= 30)%nat
  /\ forall e, In e items ->
       exists r, In r db
                 /\ Fingerprint.userId r = Sha256.sha256_hex userId
                 /\ Fingerprint.entry r = e.
Proof.
  rewrite FingerprintFacts.fetch_page in Hpage. cbv zeta in Hpage.
  remember (firstn 30
              (skipn (Z.to_nat ((Fingerprint.page_number page_param - 1) * 30))
                 (Sql.order_by_desc Fingerprint.created_at
                    (filter (fun r =>
                               (Fingerprint.userId r
                                =? Fingerprint.hashUserId userId)%string)
                            db)))) as rows eqn:Erows.
  assert (Hitems : items = map Fingerprint.entry rows /\ rows <> []).
  { destruct rows; [discriminate|]. injection Hpage as _ <-.
    split; [reflexivity|discriminate]. }
  destruct Hitems as [-> Hne]. rewrite length_map. split.
  - split.
    + destruct rows; [contradiction|cbn [List.length]; lia].
    + rewrite Erows. apply firstn_le_length.
  - intros e He. apply in_map_iff in He. destruct He as (r & <- & Hr).
    exists r. rewrite Erows in Hr.
    assert (Hsel : In r (Sql.order_by_desc Fingerprint.created_at
                           (filter (fun r0 =>
                                      (Fingerprint.userId r0
                                       =? Fingerprint.hashUserId userId)%string)
                                   db))).
    { rewrite <- (firstn_skipn
                    (Z.to_nat ((Fingerprint.page_number page_param - 1) * 30))).
      apply in_or_app. right.
      rewrite <- (firstn_skipn 30 (skipn _ _)). apply in_or_app. now left. }
    apply SqlFacts.order_by_desc_In, filter_In in Hsel.
    destruct Hsel as [Hin Hu]. apply String.eqb_eq in Hu.
    now repeat split.
Qed.

Lemma fingerprint_fetch_returns_entries_of_the_owner_witness :
  exists r,
    In r Scenario.one_entry
    /\ Fingerprint.userId r = Scenario.alice
    /\ Fingerprint.entry r = "{}".
Proof.
  destruct (fingerprint_fetch_returns_entries_of_the_owner "alice" "1"
              Scenario.one_entry (Fingerprint.PageInfo 1 30 1 1 false false)
              ["{}"]) as [_ Hall].
  - vm_compute. reflexivity.
  - destruct (Hall "{}" (or_introl eq_refl)) as (r & Hin & Hu & He).
    exists r. split; [exact Hin|]. split; [|exact He].
    rewrite Hu. vm_compute. reflexivity.
Defined.
